(** * Schedule bot: per-user schedule store and conversation engine

    A shallow embedding of [Schedule_bot_unlim.py]: the JSON-backed
    multi-user schedule store (section 4 of the source), the keyboards and
    formatting (sections 5 and 7), the conversation handlers (sections 8 to
    12) and the dispatch table that [main] registers with the
    [ConversationHandler] (section 14), followed by the properties proved
    about them. *)

From Stdlib Require Import ZArith NArith List Strings.String Strings.Ascii.
From Stdlib Require Import DecimalString.
From Stdlib Require Import DecimalZ DecimalPos.
From stdpp Require Import gmap list fin_maps.

#[local] Set Warnings "-register-all".
#[local] Open Scope Z_scope.

(** ** Python strings

    A Python [str] is a sequence of Unicode code points.  String literals of
    the source are written as Rocq strings (UTF-8 bytes) and decoded with
    [lit]. *)

Abbreviation str := (list N).

Definition utf8_step (out : list N) (b : N) : list N :=
  if (b <? 128)%N then b :: out
  else if (b <? 192)%N then
    match out with
    | c :: out' => (c * 64 + (b - 128))%N :: out'
    | [] => []
    end
  else if (b <? 224)%N then (b - 192)%N :: out
  else if (b <? 240)%N then (b - 224)%N :: out
  else (b - 240)%N :: out.

Definition lit (s : string) : str :=
  rev (fold_left utf8_step (map N_of_ascii (list_ascii_of_string s)) []).

(** [str.isspace] on one code point: the ASCII table of CPython
    ([_Py_ascii_whitespace]) and [_PyUnicode_IsWhitespace] above it. *)
Definition isspace (c : N) : bool :=
  ((9 <=? c) && (c <=? 13) || (28 <=? c) && (c <=? 32)
   || (c =? 133) || (c =? 160) || (c =? 5760)
   || (8192 <=? c) && (c <=? 8202)
   || (c =? 8232) || (c =? 8233) || (c =? 8239) || (c =? 8287)
   || (c =? 12288))%N.

Fixpoint lstrip (s : str) : str :=
  match s with
  | c :: s' => if isspace c then lstrip s' else s
  | [] => []
  end.

Definition rstrip (s : str) : str := rev (lstrip (rev s)).

(** [s.strip()] *)
Definition strip (s : str) : str := rstrip (lstrip s).

(** [str(n)] for an [int]. *)
Definition str_of_int (n : Z) : str :=
  map N_of_ascii (list_ascii_of_string (NilZero.string_of_int (Z.to_int n))).

Definition COLON : N := 58%N.

(** [s.split(":")] *)
Fixpoint split (s : str) : list str :=
  match s with
  | [] => [[]]
  | c :: s' =>
      if (c =? COLON)%N then [] :: split s'
      else match split s' with
           | p :: ps => (c :: p) :: ps
           | [] => [[c]]
           end
  end.

(** [s.split(":", maxsplit)] *)
Fixpoint split_max (s : str) (maxsplit : nat) : list str :=
  match maxsplit with
  | O => [s]
  | S n =>
      match s with
      | [] => [[]]
      | c :: s' =>
          if (c =? COLON)%N then [] :: split_max s' n
          else match split_max s' maxsplit with
               | p :: ps => (c :: p) :: ps
               | [] => [[c]]
               end
      end
  end.

(** Python exceptions that the modelled code can raise. *)
Inductive exn : Type :=
| KeyError (key : str)
| IndexError
| ValueError
| OSError
| JSONDecodeError.

(** [int(s)] for a [str], base 10, as CPython 3.11 computes it
    ([PyLong_FromUnicodeObject], then [PyLong_FromString]). *)

(** [Py_UNICODE_TODECIMAL]: the decimal digits (category Nd) come in runs of
    ten, zero to nine; these are the zeros of the runs of Unicode 14.0, the
    table of CPython 3.11. *)
Definition DECIMAL_ZEROS : list N :=
  [48; 1632; 1776; 1984; 2406; 2534; 2662; 2790; 2918; 3046; 3174; 3302;
   3430; 3558; 3664; 3792; 3872; 4160; 4240; 6112; 6160; 6470; 6608; 6784;
   6800; 6992; 7088; 7232; 7248; 42528; 43216; 43264; 43472; 43504; 43600;
   44016; 65296; 66720; 68912; 69734; 69872; 69942; 70096; 70384; 70736;
   70864; 71248; 71360; 71472; 71904; 72016; 72784; 73040; 73120; 92768;
   92864; 93008; 120782; 120792; 120802; 120812; 120822; 123200; 123632;
   125264; 130032]%N.

Definition decimal (c : N) : option N :=
  match List.find (λ z, (z <=? c) && (c <? z + 10))%N DECIMAL_ZEROS with
  | Some z => Some (c - z)%N
  | None => None
  end.

(** [_PyUnicode_TransformDecimalAndSpaceToASCII]: code points below 127
    stay, other white space becomes a blank, other decimal digits become
    ASCII digits, and the text is cut with a question mark at the first
    character that is none of these. *)
Fixpoint transform_decimal_and_space (s : str) : str :=
  match s with
  | [] => []
  | c :: s' =>
      if (c <? 127)%N then c :: transform_decimal_and_space s'
      else if isspace c then 32%N :: transform_decimal_and_space s'
      else match decimal c with
           | Some d => (48 + d)%N :: transform_decimal_and_space s'
           | None => [63%N]
           end
  end.

(** [Py_ISSPACE], the white space that [PyLong_FromString] skips at both
    ends: blank, tab, line feed, vertical tab, form feed, carriage return. *)
Definition Py_ISSPACE (c : N) : bool := ((9 <=? c) && (c <=? 13) || (c =? 32))%N.

Fixpoint skip_spaces (s : str) : str :=
  match s with
  | c :: s' => if Py_ISSPACE c then skip_spaces s' else s
  | [] => []
  end.

Definition digit (c : N) : option Z :=
  if ((48 <=? c) && (c <=? 57))%N then Some (Z.of_N c - 48) else None.

(** The digits after the first: single underscores between digits. *)
Fixpoint int_digits (s : str) (acc : Z) (after_underscore : bool) : option Z :=
  match s with
  | [] => if after_underscore then None else Some acc
  | c :: s' =>
      if (c =? 95)%N then
        if after_underscore then None else int_digits s' acc true
      else match digit c with
           | Some d => int_digits s' (10 * acc + d) false
           | None => None
           end
  end.

(** [sys.int_info.default_max_str_digits]: a literal with more digits
    (underscores not counted) is refused. *)
Definition MAX_STR_DIGITS : N := 4300.

Definition count_digits (s : str) : N :=
  N.of_nat (length (List.filter (λ c, negb (c =? 95)%N) s)).

Definition int_of_str (s : str) : exn + Z :=
  let s := transform_decimal_and_space s in
  let s := rev (skip_spaces (rev (skip_spaces s))) in
  let '(neg, body) :=
    match s with
    | 45%N :: r => (true, r)
    | 43%N :: r => (false, r)
    | _ => (false, s)
    end in
  match body with
  | c :: r =>
      match digit c with
      | Some d =>
          match int_digits r d false with
          | Some n =>
              if (MAX_STR_DIGITS <? count_digits body)%N then inl ValueError
              else inr (if neg then - n else n)
          | None => inl ValueError
          end
      | None => inl ValueError
      end
  | [] => inl ValueError
  end.

(** ** JSON values

    What [json.load] produces and [json.dump] accepts.  A Python [dict] is
    used here only through [in], [get], item lookup and item assignment, so
    it is a finite map; [float] values are carried as their IEEE-754 bits. *)

Inductive json : Type :=
| JNull
| JBool (b : bool)
| JInt (n : Z)
| JFloat (bits : N)
| JStr (s : str)
| JList (l : list json)
| JDict (m : gmap str json).

(** ** Error and state monads *)

#[export] Instance exn_ret : MRet (sum exn) := λ A x, inr x.
#[export] Instance exn_bind : MBind (sum exn) := λ A B f m,
  match m with
  | inl e => inl e
  | inr x => f x
  end.

(** The backing resource [DATA_FILE]: what [json.load] finds there. *)
Inductive contents : Type :=
| Garbage                 (* bytes that are not a JSON document *)
| Document (j : json).    (* the text of the JSON document [j] *)

Inductive file_state : Type :=
| Absent                  (* [DATA_FILE.exists()] is false *)
| Unreadable              (* exists, but opening or reading it raises *)
| Holds (c : contents).

(** The storage medium together with the log of the tables handed to
    [save_all], most recent first.  The medium is taken to be writable. *)
Record world : Type := World {
  file : file_state;
  writes : list (gmap str json)
}.

(** A computation over state [S] that returns a value or raises; the
    effects performed before the exception stay. *)
Definition Eff (S A : Type) : Type := S → (exn + A) * S.

#[export] Instance Eff_ret {S} : MRet (Eff S) := λ A x s, (inr x, s).
#[export] Instance Eff_bind {S} : MBind (Eff S) := λ A B f m s,
  match m s with
  | (inl e, s') => (inl e, s')
  | (inr x, s') => f x s'
  end.

(** Lifts a pure fallible expression. *)
Definition eval {S A} (r : exn + A) : Eff S A := λ s, (r, s).

(** [try: body except Exception: handler] *)
Definition try_except {S A} (body : Eff S A) (handler : Eff S A) : Eff S A :=
  λ s, match body s with
       | (inl _, s') => handler s'
       | (inr x, s') => (inr x, s')
       end.

Abbreviation St := (Eff world).

(** ** Schedule settings (section 2 of the source) *)

Definition WEEKDAYS : list str :=
  [lit "monday"; lit "tuesday"; lit "wednesday"; lit "thursday"; lit "friday"].

Definition WEEKDAY_RU : gmap str str :=
  <[lit "friday" := lit "Пятница"]>
  (<[lit "thursday" := lit "Четверг"]>
  (<[lit "wednesday" := lit "Среда"]>
  (<[lit "tuesday" := lit "Вторник"]>
  (<[lit "monday" := lit "Понедельник"]> ∅)))).

Definition PAIR_COUNT : nat := 4.

(** The literal ["—"] that marks an empty slot. *)
Definition DASH : str := lit "—".

(** ** Conversation states (section 3) *)

Inductive state : Type :=
| STATE_MENU
| STATE_VIEW_DAY
| STATE_BUILD_DAY
| STATE_BUILD_SLOT
| STATE_BUILD_TEXT
| STATE_EDIT_DAY
| STATE_EDIT_SLOT
| STATE_EDIT_TEXT.

(** ** Storage (section 4) *)

(** A schedule as the storage functions build it: a [dict] from day names
    to lists. *)
Abbreviation schedule := (gmap str (list json)).

(** The same object seen as a JSON value (what is stored in the table). *)
Definition to_json (s : schedule) : json := JDict (JList <$> s).

(** [{d: ["—"] * PAIR_COUNT for d in WEEKDAYS}]: every day gets a list
    object of its own. *)
Definition default_schedule : schedule :=
  foldl (λ out d, <[d := replicate PAIR_COUNT (JStr DASH)]> out) ∅ WEEKDAYS.

Definition _normalize_schedule (raw : json) : schedule :=
  let raw : gmap str json :=
    match raw with
    | JDict m => m
    | _ => ∅
    end in
  foldl (λ out d,
           let day_list :=
             match raw !! d with
             | Some (JList l) => l
             | _ => replicate PAIR_COUNT (JStr DASH)
             end in
           <[d := take PAIR_COUNT (day_list ++ replicate PAIR_COUNT (JStr DASH))]> out)
        ∅ WEEKDAYS.

(** [DATA_FILE.exists()] on the media of [world], where the probe answers;
    the probe that raises is in [Disk.path_exists] below. *)
Definition path_exists : St bool :=
  λ w, (inr (match file w with Absent => false | _ => true end), w).

(** [with DATA_FILE.open("r") as f: ... f.read()] *)
Definition open_read : St contents :=
  λ w, match file w with
       | Holds c => (inr c, w)
       | _ => (inl OSError, w)
       end.

Definition json_load (c : contents) : exn + json :=
  match c with
  | Document j => inr j
  | Garbage => inl JSONDecodeError
  end.

Definition load_all : St (gmap str json) :=
  present ← path_exists;
  if negb present then mret ∅
  else
    try_except
      (c ← open_read;
       data ← eval (json_load c);
       mret (match data with JDict m => m | _ => ∅ end))
      (mret ∅).

Definition save_all (data : gmap str json) : St unit :=
  λ w, (inr tt, {| file := Holds (Document (JDict data)); writes := data :: writes w |}).

Definition get_user_schedule (user_id : Z) : St schedule :=
  all_data ← load_all;
  let key := str_of_int user_id in
  match all_data !! key with
  | None =>
      let entry := default_schedule in
      let all_data := <[key := to_json entry]> all_data in
      save_all all_data;;
      mret entry
  | Some raw =>
      let entry := _normalize_schedule raw in
      let all_data := <[key := to_json entry]> all_data in
      save_all all_data;;
      mret entry
  end.

Definition set_user_schedule (user_id : Z) (sched : json) : St unit :=
  all_data ← load_all;
  let key := str_of_int user_id in
  let all_data := <[key := to_json (_normalize_schedule sched)]> all_data in
  save_all all_data.

(** [d[k]] on a dict. *)
Definition dict_getitem {A} (d : gmap str A) (k : str) : exn + A :=
  match d !! k with
  | Some v => inr v
  | None => inl (KeyError k)
  end.

(** The position a Python list index denotes: negative indices count from
    the end, anything outside raises [IndexError]. *)
Definition list_index (len : nat) (i : Z) : exn + nat :=
  let j := if i <? 0 then i + Z.of_nat len else i in
  if (0 <=? j) && (j <? Z.of_nat len) then inr (Z.to_nat j) else inl IndexError.

(** [l[i]] *)
Definition list_getitem {A} (l : list A) (i : Z) : exn + A :=
  n ← list_index (length l) i;
  match l !! n with
  | Some v => inr v
  | None => inl IndexError
  end.

(** [l[i] = v] *)
Definition list_setitem {A} (l : list A) (i : Z) (v : A) : exn + list A :=
  n ← list_index (length l) i;
  mret (<[n := v]> l).

(** [value if value else "—"] *)
Definition or_dash (value : str) : str :=
  match value with
  | [] => DASH
  | _ => value
  end.

Definition set_user_day_slot (user_id : Z) (day : str) (slot_index : Z) (value : str)
  : St schedule :=
  sched ← get_user_schedule user_id;
  day_list ← eval (dict_getitem sched day);
  day_list ← eval (list_setitem day_list slot_index (JStr (or_dash value)));
  let sched := <[day := day_list]> sched in
  set_user_schedule user_id (to_json sched);;
  mret sched.

(** ** [load_all] over every answer of the file system

    [world] describes the media the bot stores on: the existence probe of
    [DATA_FILE] answers and the file can be written.  [load_all] is
    embedded a second time, over every outcome of the three calls it
    makes: [DATA_FILE.exists()], [DATA_FILE.open("r", encoding="utf-8")]
    and [json.load(f)]. *)

Module Disk.

(** What [json.load(f)] does with the opened file. *)
Inductive decoding : Type :=
| Raises (e : exn)              (* reading or decoding raises: [OSError],
                                   [UnicodeDecodeError], [JSONDecodeError] *)
| Refuses (j : json) (e : exn)  (* the text is the JSON document [j], and the
                                   decoder raises on it: [ValueError] for an
                                   integer literal above [MAX_STR_DIGITS] *)
| Returns (j : json).           (* the text is the JSON document [j], and the
                                   decoder returns it *)

(** What is at [DATA_FILE]. *)
Inductive path_state : Type :=
| ProbeFails (e : exn)          (* [os.stat] fails and [Path.exists] does not
                                   take the error for a no (it does so only
                                   for ENOENT, ENOTDIR, EBADF and ELOOP): it
                                   raises, for example [PermissionError] *)
| Missing                       (* [exists()] is false *)
| OpenFails (e : exn)           (* exists, and [open] raises *)
| Opens (d : decoding).

Definition path_exists : Eff path_state bool :=
  λ p, (match p with
        | ProbeFails e => inl e
        | Missing => inr false
        | _ => inr true
        end, p).

(** [DATA_FILE.open("r", encoding="utf-8")] *)
Definition open_read : Eff path_state decoding :=
  λ p, (match p with
        | Opens d => inr d
        | OpenFails e | ProbeFails e => inl e
        | Missing => inl OSError
        end, p).

Definition json_load (f : decoding) : exn + json :=
  match f with
  | Returns j => inr j
  | Raises e | Refuses _ e => inl e
  end.

Definition load_all : Eff path_state (gmap str json) :=
  present ← path_exists;
  if negb present then mret ∅
  else
    try_except
      (f ← open_read;
       data ← eval (json_load f);
       mret (match data with JDict m => m | _ => ∅ end))
      (mret ∅).

(** The media of [world] among these. *)
Definition of_file (f : file_state) : path_state :=
  match f with
  | Absent => Missing
  | Unreadable => OpenFails OSError
  | Holds Garbage => Opens (Raises JSONDecodeError)
  | Holds (Document j) => Opens (Returns j)
  end.

End Disk.

(** ** Keyboards (section 5)

    An inline keyboard is a grid of buttons, each a label and the callback
    data it sends. *)

Abbreviation button := (str * str)%type.
Abbreviation keyboard := (list (list button)).

Definition kb_menu : keyboard :=
  [ [(lit "Узнать расписание", lit "menu:view")];
    [(lit "Составить расписание", lit "menu:build")];
    [(lit "Редактировать расписание", lit "menu:edit")] ].

Definition kb_weekdays (prefix : str) : exn + keyboard :=
  rows ← mapM (λ d, label ← dict_getitem WEEKDAY_RU d;
                    mret [(label, prefix ++ lit ":" ++ d)]) WEEKDAYS;
  mret (rows ++ [[(lit "Меню", lit "menu:back")]]).

Definition kb_slots (prefix day : str) : keyboard :=
  let rows :=
    (λ i : Z, [(str_of_int (i + 1) ++ lit " пара",
                prefix ++ lit ":" ++ day ++ lit ":" ++ str_of_int i)])
      <$> seqZ 0 (Z.of_nat PAIR_COUNT) in
  rows ++ [[(lit "Назад", prefix ++ lit ":back:" ++ day)]]
       ++ [[(lit "Меню", lit "menu:back")]].

Definition kb_back_to_menu : keyboard := [[(lit "Меню", lit "menu:back")]].

(** ** Message texts

    The text of a message is kept as the pieces an f-string is made of:
    literal text, and values rendered by [str()]. *)

Inductive piece : Type :=
| Lit (s : str)
| Show (v : json).

Abbreviation text := (list piece).

(** ["\n".join(lines)] *)
Fixpoint join_lines (lines : list text) : text :=
  match lines with
  | [] => []
  | [l] => l
  | l :: rest => l ++ Lit (lit "
") :: join_lines rest
  end.

(** ** Formatting (section 7) *)

Definition format_day (sched : schedule) (day : str) : exn + text :=
  let pairs := default (replicate PAIR_COUNT (JStr DASH)) (sched !! day) in
  label ← dict_getitem WEEKDAY_RU day;
  let lines := [[Lit (lit "📅 "); Lit label]] in
  let lines :=
    lines ++ imap (λ idx item,
                     [Lit (str_of_int (Z.of_nat idx + 1)); Lit (lit ") "); Show item])
                  pairs in
  let lines := lines ++ [[]] in
  let lines := lines ++ [[Lit (lit "Суббота и воскресенье — выходной.")]] in
  mret (join_lines lines).

(** ** The handler context

    What a handler can touch: the storage medium, the [user_data] of the
    user the update comes from, and the transport, seen as the log of the
    calls made to it (most recent first). *)

Inductive action : Type :=
| Answer                                   (* [query.answer()] *)
| EditMessage (t : text) (markup : keyboard)
| ReplyText (t : text) (markup : keyboard).

(** [context.user_data] with the four keys the handlers use; [None] is a
    missing key. *)
Record session : Type := Session {
  build_day : option str;
  build_slot : option Z;
  edit_day : option str;
  edit_slot : option Z
}.

Record ctx : Type := Ctx {
  store : world;
  user_data : session;
  sent : list action
}.

Abbreviation H := (Eff ctx).

Definition storage {A} (op : St A) : H A :=
  λ c, let '(r, w) := op (store c) in
       (r, {| store := w; user_data := user_data c; sent := sent c |}).

Definition send (a : action) : H unit :=
  λ c, (inr tt, {| store := store c; user_data := user_data c; sent := a :: sent c |}).

Definition get_user_data : H session := λ c, (inr (user_data c), c).

Definition set_user_data (f : session → session) : H unit :=
  λ c, (inr tt, {| store := store c; user_data := f (user_data c); sent := sent c |}).

Definition set_build_day (day : str) (s : session) : session :=
  {| build_day := Some day; build_slot := build_slot s;
     edit_day := edit_day s; edit_slot := edit_slot s |}.
Definition set_build_slot (i : Z) (s : session) : session :=
  {| build_day := build_day s; build_slot := Some i;
     edit_day := edit_day s; edit_slot := edit_slot s |}.
Definition set_edit_day (day : str) (s : session) : session :=
  {| build_day := build_day s; build_slot := build_slot s;
     edit_day := Some day; edit_slot := edit_slot s |}.
Definition set_edit_slot (i : Z) (s : session) : session :=
  {| build_day := build_day s; build_slot := build_slot s;
     edit_day := edit_day s; edit_slot := Some i |}.

(** ** Helpers (section 6)

    A "Message is not modified" answer of the transport is swallowed, so
    from the handlers' side the edit is a call that returns. *)
Definition safe_edit_message (t : text) (markup : keyboard) : H unit :=
  send (EditMessage t markup).

(** [a, b = parts] and [a, b, c = parts] *)
Definition unpack2 (parts : list str) : exn + (str * str) :=
  match parts with
  | [a; b] => inr (a, b)
  | _ => inl ValueError
  end.

Definition unpack3 (parts : list str) : exn + (str * str * str) :=
  match parts with
  | [a; b; c] => inr (a, b, c)
  | _ => inl ValueError
  end.

(** ** Commands (section 8) *)

Definition cmd_start (user_id : Z) : H state :=
  storage (get_user_schedule user_id);;
  send (ReplyText
          [Lit (lit "Меню.
У каждого пользователя своё расписание (Пн–Пт, 4 пары).")]
          kb_menu);;
  mret STATE_MENU.

Definition cmd_help : H unit :=
  send (ReplyText
          [Lit (lit "Команды:
/start — меню
/help — помощь

Расписание персональное для каждого пользователя.
Пн–Пт: 4 пары. Сб/Вс: выходной.")]
          kb_menu).

(** ** Menu router (section 9) *)

Definition on_menu_click (data : str) : H state :=
  send Answer;;
  if decide (data = lit "menu:back") then
    safe_edit_message [Lit (lit "Меню:")] kb_menu;;
    mret STATE_MENU
  else if decide (data = lit "menu:view") then
    kb ← eval (kb_weekdays (lit "viewday"));
    safe_edit_message [Lit (lit "Выберите день (Пн–Пт):")] kb;;
    mret STATE_VIEW_DAY
  else if decide (data = lit "menu:build") then
    kb ← eval (kb_weekdays (lit "buildday"));
    safe_edit_message [Lit (lit "Составление. Выберите день (Пн–Пт):")] kb;;
    mret STATE_BUILD_DAY
  else if decide (data = lit "menu:edit") then
    kb ← eval (kb_weekdays (lit "editday"));
    safe_edit_message [Lit (lit "Редактирование. Выберите день (Пн–Пт):")] kb;;
    mret STATE_EDIT_DAY
  else
    safe_edit_message [Lit (lit "Меню:")] kb_menu;;
    mret STATE_MENU.

(** ** View (section 10) *)

Definition on_view_day (user_id : Z) (data : str) : H state :=
  send Answer;;
  '(_, day) ← eval (unpack2 (split_max data 1));
  sched ← storage (get_user_schedule user_id);
  t ← eval (format_day sched day);
  safe_edit_message t kb_back_to_menu;;
  mret STATE_MENU.

(** ** Build (section 11) *)

Definition on_build_day (user_id : Z) (data : str) : H state :=
  send Answer;;
  '(_, day) ← eval (unpack2 (split_max data 1));
  set_user_data (set_build_day day);;
  sched ← storage (get_user_schedule user_id);
  t ← eval (format_day sched day);
  safe_edit_message
    (t ++ [Lit (lit "

Выберите, какую пару заполнить:")])
    (kb_slots (lit "buildslot") day);;
  mret STATE_BUILD_SLOT.

Definition on_build_slot (data : str) : H state :=
  send Answer;;
  let parts := split data in
  if bool_decide (3 ≤ length parts)%nat && bool_decide (parts !! 1%nat = Some (lit "back")) then
    kb ← eval (kb_weekdays (lit "buildday"));
    safe_edit_message [Lit (lit "Составление. Выберите день (Пн–Пт):")] kb;;
    mret STATE_BUILD_DAY
  else
    '(_, day, slot_index_str) ← eval (unpack3 parts);
    slot_index ← eval (int_of_str slot_index_str);
    set_user_data (set_build_day day);;
    set_user_data (set_build_slot slot_index);;
    label ← eval (dict_getitem WEEKDAY_RU day);
    safe_edit_message
      [Lit (lit "Введите предмет для:
"); Lit label; Lit (lit ", "); Lit (str_of_int (slot_index + 1));
       Lit (lit " пара

Пример: Математика (ауд. 305)
Можно отправить «—», чтобы оставить пусто.")]
      kb_back_to_menu;;
    mret STATE_BUILD_TEXT.

(** [i in range(n)] for an [int] [i]. *)
Definition in_range (i : Z) (n : nat) : bool := (0 <=? i) && (i <? Z.of_nat n).

(** The text of the message, or the empty string when it has none,
    stripped: the first line of both text-entry handlers. *)
Definition message_text (t : option str) : str := strip (default [] t).

Definition STATE_LOST : text := [Lit (lit "Состояние сбилось. Нажмите /start.")].

Definition on_build_text (user_id : Z) (message : option str) : H state :=
  let txt := message_text message in
  ud ← get_user_data;
  match build_day ud, build_slot ud with
  | Some day, Some slot =>
      if negb (bool_decide (day ∈ WEEKDAYS)) || negb (in_range slot PAIR_COUNT) then
        send (ReplyText STATE_LOST kb_menu);;
        mret STATE_MENU
      else
        sched ← storage (set_user_day_slot user_id day slot (or_dash txt));
        t ← eval (format_day sched day);
        send (ReplyText (Lit (lit "Сохранено.

") :: t) kb_menu);;
        mret STATE_MENU
  | _, _ =>
      (* [None] is neither in [WEEKDAYS] nor in [range(PAIR_COUNT)] *)
      send (ReplyText STATE_LOST kb_menu);;
      mret STATE_MENU
  end.

(** ** Edit (section 12) *)

Definition on_edit_day (user_id : Z) (data : str) : H state :=
  send Answer;;
  '(_, day) ← eval (unpack2 (split_max data 1));
  set_user_data (set_edit_day day);;
  sched ← storage (get_user_schedule user_id);
  t ← eval (format_day sched day);
  safe_edit_message
    (t ++ [Lit (lit "

Выберите пару для редактирования:")])
    (kb_slots (lit "editslot") day);;
  mret STATE_EDIT_SLOT.

Definition on_edit_slot (user_id : Z) (data : str) : H state :=
  send Answer;;
  let parts := split data in
  if bool_decide (3 ≤ length parts)%nat && bool_decide (parts !! 1%nat = Some (lit "back")) then
    kb ← eval (kb_weekdays (lit "editday"));
    safe_edit_message [Lit (lit "Редактирование. Выберите день (Пн–Пт):")] kb;;
    mret STATE_EDIT_DAY
  else
    '(_, day, slot_index_str) ← eval (unpack3 parts);
    slot_index ← eval (int_of_str slot_index_str);
    set_user_data (set_edit_day day);;
    set_user_data (set_edit_slot slot_index);;
    sched ← storage (get_user_schedule user_id);
    day_list ← eval (dict_getitem sched day);
    current ← eval (list_getitem day_list slot_index);
    label ← eval (dict_getitem WEEKDAY_RU day);
    safe_edit_message
      [Lit (lit "Текущее значение:
"); Show current; Lit (lit "

Введите новое для:
"); Lit label; Lit (lit ", "); Lit (str_of_int (slot_index + 1));
       Lit (lit " пара

Можно отправить «—», чтобы очистить.")]
      kb_back_to_menu;;
    mret STATE_EDIT_TEXT.

Definition on_edit_text (user_id : Z) (message : option str) : H state :=
  let txt := message_text message in
  ud ← get_user_data;
  match edit_day ud, edit_slot ud with
  | Some day, Some slot =>
      if negb (bool_decide (day ∈ WEEKDAYS)) || negb (in_range slot PAIR_COUNT) then
        send (ReplyText STATE_LOST kb_menu);;
        mret STATE_MENU
      else
        sched ← storage (set_user_day_slot user_id day slot (or_dash txt));
        t ← eval (format_day sched day);
        send (ReplyText (Lit (lit "Обновлено.

") :: t) kb_menu);;
        mret STATE_MENU
  | _, _ =>
      (* [None] is neither in [WEEKDAYS] nor in [range(PAIR_COUNT)] *)
      send (ReplyText STATE_LOST kb_menu);;
      mret STATE_MENU
  end.

(** ** The conversation handler (section 14)

    An update, as the dispatch of [ConversationHandler] sees it. *)
Inductive update : Type :=
| Command (name : str)          (* a message that opens with the bot command [/name] *)
| Message (t : str)             (* any other message, with its text *)
| CallbackQuery (data : str).   (* a button press, with its callback data *)

(** The two regular expressions of the table, matched with [re.match]. *)
Inductive pattern : Type :=
| StartsWith (p : str)          (* [^p] *)
| Exactly (p : str).            (* [^p$]: [$] also matches before a final newline *)

Fixpoint startswith (p s : str) : bool :=
  match p, s with
  | [], _ => true
  | a :: p', b :: s' => (a =? b)%N && startswith p' s'
  | _ :: _, [] => false
  end.

Definition re_match (pat : pattern) (s : str) : bool :=
  match pat with
  | StartsWith p => startswith p s
  | Exactly p => bool_decide (s = p) || bool_decide (s = p ++ [10%N])
  end.

(** What a handler returns: the next state, or [None] to stay. *)
Abbreviation callback := (Z → H (option state)).

Inductive handler : Type :=
| CommandHandler (command : str) (cb : callback)
| CallbackQueryHandler (cb : str → callback) (pat : option pattern)
| MessageHandler (cb : str → callback).   (* [filters.TEXT & ~filters.COMMAND] *)

(** [handler.check_update(update)]: the callback to run, if the handler
    takes the update. *)
Definition check_update (h : handler) (u : update) : option callback :=
  match h, u with
  | CommandHandler command cb, Command name =>
      if decide (name = command) then Some cb else None
  | CallbackQueryHandler cb None, CallbackQuery data => Some (cb data)
  | CallbackQueryHandler cb (Some pat), CallbackQuery data =>
      if re_match pat data then Some (cb data) else None
  | MessageHandler cb, Message t =>
      match t with
      | [] => None
      | _ => Some (cb t)
      end
  | _, _ => None
  end.

Definition returning {A} (m : H A) : H (option A) := x ← m; mret (Some x).

Definition menu_back : handler :=
  CallbackQueryHandler (λ data _, returning (on_menu_click data))
                       (Some (Exactly (lit "menu:back"))).

Definition entry_points : list handler :=
  [CommandHandler (lit "start") (λ user_id, returning (cmd_start user_id))].

Definition states (s : state) : list handler :=
  match s with
  | STATE_MENU =>
      [CallbackQueryHandler (λ data _, returning (on_menu_click data)) None]
  | STATE_VIEW_DAY =>
      [CallbackQueryHandler (λ data user_id, returning (on_view_day user_id data))
                            (Some (StartsWith (lit "viewday:")));
       menu_back]
  | STATE_BUILD_DAY =>
      [CallbackQueryHandler (λ data user_id, returning (on_build_day user_id data))
                            (Some (StartsWith (lit "buildday:")));
       menu_back]
  | STATE_BUILD_SLOT =>
      [CallbackQueryHandler (λ data _, returning (on_build_slot data))
                            (Some (StartsWith (lit "buildslot:")));
       menu_back]
  | STATE_BUILD_TEXT =>
      [MessageHandler (λ t user_id, returning (on_build_text user_id (Some t)));
       menu_back]
  | STATE_EDIT_DAY =>
      [CallbackQueryHandler (λ data user_id, returning (on_edit_day user_id data))
                            (Some (StartsWith (lit "editday:")));
       menu_back]
  | STATE_EDIT_SLOT =>
      [CallbackQueryHandler (λ data user_id, returning (on_edit_slot user_id data))
                            (Some (StartsWith (lit "editslot:")));
       menu_back]
  | STATE_EDIT_TEXT =>
      [MessageHandler (λ t user_id, returning (on_edit_text user_id (Some t)));
       menu_back]
  end.

Definition help_handler : handler :=
  CommandHandler (lit "help") (λ _, cmd_help;; mret None).

Definition fallbacks : list handler := [help_handler].

(** The first handler of a list that takes the update. *)
Fixpoint first_match (hs : list handler) (u : update) : option callback :=
  match hs with
  | [] => None
  | h :: hs' =>
      match check_update h u with
      | Some cb => Some cb
      | None => first_match hs' u
      end
  end.

(** The choice made by a [ConversationHandler] with [allow_reentry=True]:
    entry points first, then the handlers of the current state, then the
    fallbacks; without a conversation only the entry points. *)
Definition conversation_select (current : option state) (u : update) : option callback :=
  match first_match entry_points u with
  | Some cb => Some cb
  | None =>
      match current with
      | None => None
      | Some s =>
          match first_match (states s) u with
          | Some cb => Some cb
          | None => first_match fallbacks u
          end
      end
  end.

(** One conversation of one user: its state ([None] before the first
    [/start]), the handler context, and the errors handed to
    [error_handler]. *)
Record machine : Type := Machine {
  current : option state;
  context : ctx;
  errors : list exn
}.

(** Processing one update.  The application tries the conversation handler
    first and the stand-alone [/help] handler second; a handler that raises
    leaves the conversation state as it was. *)
Definition process_update (user_id : Z) (u : update) (m : machine) : machine :=
  let chosen :=
    match conversation_select (current m) u with
    | Some cb => Some cb
    | None => check_update help_handler u
    end in
  match chosen with
  | None => m
  | Some cb =>
      match cb user_id (context m) with
      | (inr (Some s), c) => {| current := Some s; context := c; errors := errors m |}
      | (inr None, c) => {| current := current m; context := c; errors := errors m |}
      | (inl e, c) => {| current := current m; context := c; errors := e :: errors m |}
      end
  end.

(** The states a run goes through, update by update. *)
Fixpoint run (user_id : Z) (us : list update) (m : machine) : list (option state) * machine :=
  match us with
  | [] => ([], m)
  | u :: us' =>
      let m' := process_update user_id u m in
      let '(trace, m'') := run user_id us' m' in
      (current m' :: trace, m'')
  end.

(** * Vocabulary of the properties *)

(** The table that the storage medium holds, as [load_all] reads it. *)
Definition table_of (f : file_state) : gmap str json :=
  match f with
  | Holds (Document (JDict m)) => m
  | _ => ∅
  end.

Definition raw_dict (raw : json) : gmap str json :=
  match raw with
  | JDict m => m
  | _ => ∅
  end.

(** The list found under day [d] of a raw entry; none counts as empty. *)
Definition raw_day_list (raw : json) (d : str) : list json :=
  match raw_dict raw !! d with
  | Some (JList l) => l
  | _ => []
  end.

(** What one round of the loop of [_normalize_schedule] stores under [d]. *)
Definition day_slots (raw : json) (d : str) : list json :=
  take PAIR_COUNT
    (match raw_dict raw !! d with
     | Some (JList l) => l
     | _ => replicate PAIR_COUNT (JStr DASH)
     end ++ replicate PAIR_COUNT (JStr DASH)).

(** The schedule of [key] as a reader of table [t] gets it. *)
Definition view (t : gmap str json) (key : str) : schedule :=
  match t !! key with
  | None => default_schedule
  | Some raw => _normalize_schedule raw
  end.

(** The data-model invariant: exactly the five days, four slots each. *)
Definition shaped (s : schedule) : Prop :=
  ∀ d, if decide (d ∈ WEEKDAYS)
       then ∃ l, s !! d = Some l ∧ length l = PAIR_COUNT
       else s !! d = None.

(** Slot [j] of day [d] of a schedule. *)
Definition slot (s : schedule) (d : str) (j : nat) : option json :=
  s !! d ≫= (λ l, l !! j).

(** Slot [j] of day [d] of the entry stored under [key], read from the
    raw table without any normalization. *)
Definition stored_slot (t : gmap str json) (key d : str) (j : nat) : option json :=
  match t !! key with
  | Some (JDict m) =>
      match m !! d with
      | Some (JList l) => l !! j
      | _ => None
      end
  | _ => None
  end.

(** [isinstance(v, str)] *)
Definition is_string (v : json) : bool :=
  match v with
  | JStr _ => true
  | _ => false
  end.

(** A stored entry that already has the shape of a schedule: a mapping
    whose keys are exactly the five days, each to a list of four items. *)
Definition well_formed (raw : json) : bool :=
  match raw with
  | JDict m =>
      bool_decide (dom m = list_to_set WEEKDAYS)
      && forallb (λ d, match m !! d with
                       | Some (JList l) => bool_decide (length l = PAIR_COUNT)
                       | _ => false
                       end) WEEKDAYS
  | _ => false
  end.

(** The two text-entry flows, which differ in the session keys they read,
    the state they wait in and the wording of the confirmation. *)
Inductive flow : Type := Building | Editing.

Definition on_text (f : flow) : Z → option str → H state :=
  match f with
  | Building => on_build_text
  | Editing => on_edit_text
  end.

Definition text_state (f : flow) : state :=
  match f with
  | Building => STATE_BUILD_TEXT
  | Editing => STATE_EDIT_TEXT
  end.

Definition pending (f : flow) (ud : session) : option str * option Z :=
  match f with
  | Building => (build_day ud, build_slot ud)
  | Editing => (edit_day ud, edit_slot ud)
  end.

(** A pending selection that names one of the five days and a slot index
    in 0..3. *)
Definition pending_ok (p : option str * option Z) : bool :=
  match p with
  | (Some d, Some i) => bool_decide (d ∈ WEEKDAYS) && bool_decide (0 ≤ i < 4)
  | _ => false
  end.

(** The text of a message with the blanks around it removed, or the empty
    marker when nothing is left. *)
Definition trimmed_or_dash (message : option str) : str :=
  let txt := strip (default [] message) in
  if decide (txt = []) then lit "—" else txt.

(** The updates of the build flow, with the callback data that [kb_menu],
    [kb_weekdays] and [kb_slots] put on the buttons. *)
Definition build_flow (day : str) (i : Z) (t : str) : list update :=
  [CallbackQuery (lit "menu:build");
   CallbackQuery (lit "buildday" ++ lit ":" ++ day);
   CallbackQuery (lit "buildslot" ++ lit ":" ++ day ++ lit ":" ++ str_of_int i);
   Message t].

(** A user nobody has heard of yet: no file, nothing in the session. *)
Definition fresh_session : session :=
  {| build_day := None; build_slot := None; edit_day := None; edit_slot := None |}.

Definition fresh_ctx : ctx :=
  {| store := World Absent []; user_data := fresh_session; sent := [] |}.

(** A table in which user 7 has the default schedule. *)
Definition table7 : gmap str json := {[str_of_int 7 := to_json default_schedule]}.

Definition world7 : world := World (Holds (Document (JDict table7))) [].

(** A table in which user 7 is stored with a one-item Monday and no other
    day. *)
Definition short_table : gmap str json :=
  {[str_of_int 7 := JDict {[lit "monday" := JList [JStr (lit "Math")]]}]}.

(** A session in which Monday's first slot is awaited by the build flow. *)
Definition monday_pending : ctx :=
  {| store := World Absent [];
     user_data := set_build_slot 0 (set_build_day (lit "monday") fresh_session);
     sent := [] |}.

(** Unfolds the sequencing of a handler down to its first storage call. *)
Ltac step_handler h :=
  unfold h, mbind, Eff_bind, get_user_data, send, safe_edit_message, set_user_data;
  cbn [store user_data sent].

(** ** Vocabulary of the further properties *)

(** The file holds a JSON document whose top level is an object. *)
Definition holds_object (f : file_state) : bool :=
  match f with
  | Holds (Document (JDict _)) => true
  | _ => false
  end.

(** The values that a text renders with [str()], in order. *)
Definition shown (t : text) : list json :=
  omap (λ p, match p with Show v => Some v | Lit _ => None end) t.

(** The callback data of the buttons of a keyboard, row by row. *)
Definition buttons (kb : keyboard) : list str := concat (map (map snd) kb).

(** The two states in which a text message is awaited. *)
Definition awaits_text (s : state) : bool :=
  match s with
  | STATE_BUILD_TEXT | STATE_EDIT_TEXT => true
  | _ => false
  end.

(** The three day choosers and what surrounds them in the table of [main]. *)
Inductive chooser : Type := ViewDays | BuildDays | EditDays.

Definition day_prefix (k : chooser) : str :=
  match k with
  | ViewDays => lit "viewday"
  | BuildDays => lit "buildday"
  | EditDays => lit "editday"
  end.

Definition day_state (k : chooser) : state :=
  match k with
  | ViewDays => STATE_VIEW_DAY
  | BuildDays => STATE_BUILD_DAY
  | EditDays => STATE_EDIT_DAY
  end.

Definition after_day (k : chooser) : state :=
  match k with
  | ViewDays => STATE_MENU
  | BuildDays => STATE_BUILD_SLOT
  | EditDays => STATE_EDIT_SLOT
  end.

(** The two slot choosers: the prefix of their callback data, their state
    and the state of the day chooser before them. *)
Definition slot_prefix (f : flow) : str :=
  match f with
  | Building => lit "buildslot"
  | Editing => lit "editslot"
  end.

Definition slot_state (f : flow) : state :=
  match f with
  | Building => STATE_BUILD_SLOT
  | Editing => STATE_EDIT_SLOT
  end.

Definition chooser_state (f : flow) : state :=
  match f with
  | Building => STATE_BUILD_DAY
  | Editing => STATE_EDIT_DAY
  end.

(** Pressing the button with callback data [data] in state [s] is handled
    without an error and leads to one of the [targets]. *)
Definition lands (user_id : Z) (s : state) (data : str) (targets : list state) : Prop :=
  ∀ c es, ∃ s' c',
    process_update user_id (CallbackQuery data)
      {| current := Some s; context := c; errors := es |}
    = {| current := Some s'; context := c'; errors := es |}
    ∧ s' ∈ targets.

(** Unfolds one step of the machine down to the handler that is chosen. *)
Ltac step_machine cb :=
  unfold process_update; cbn [current context errors];
  match goal with
  | |- context [conversation_select ?s ?u] =>
      change (conversation_select s u) with (Some cb)
  end;
  unfold returning, mbind, Eff_bind.

(** The updates of the edit flow and of the view flow, with the callback
    data of the buttons. *)
Definition edit_flow (day : str) (i : Z) (t : str) : list update :=
  [CallbackQuery (lit "menu:edit");
   CallbackQuery (lit "editday" ++ lit ":" ++ day);
   CallbackQuery (lit "editslot" ++ lit ":" ++ day ++ lit ":" ++ str_of_int i);
   Message t].

Definition view_flow (day : str) : list update :=
  [CallbackQuery (lit "menu:view");
   CallbackQuery (lit "viewday" ++ lit ":" ++ day)].

(** The callback data of a slot button, with any text in the place of the
    slot number. *)
Definition slot_payload (f : flow) (day x : str) : str :=
  slot_prefix f ++ lit ":" ++ day ++ lit ":" ++ x.

(** * Sanity checks of the string functions *)

Example lit_dash : lit "—" = [8212%N].
Proof. reflexivity. Qed.

Example lit_calendar : lit "📅" = [128197%N].
Proof. reflexivity. Qed.

Example lit_cyrillic : lit "Ср" = [1057%N; 1088%N].
Proof. reflexivity. Qed.

Example strip_blanks : strip (lit "  a b 	") = lit "a b".
Proof. reflexivity. Qed.

Example strip_no_break_space : strip [160%N; 97%N; 12288%N] = lit "a".
Proof. reflexivity. Qed.

Example str_of_int_signs : str_of_int 0 = lit "0" ∧ str_of_int (-42) = lit "-42".
Proof. split; reflexivity. Qed.

Example split_trailing : split (lit "a:b:") = [lit "a"; lit "b"; []].
Proof. reflexivity. Qed.

Example split_max_once : split_max (lit "a:b:c") 1 = [lit "a"; lit "b:c"].
Proof. reflexivity. Qed.

Example int_of_str_forms :
  int_of_str (lit " -1_0 ") = inr (-10) ∧ int_of_str (lit "1__0") = inl ValueError.
Proof. split; reflexivity. Qed.

Example int_of_str_scripts :
  int_of_str [1635%N] = inr 3 ∧ int_of_str [160%N; 55%N] = inr 7
  ∧ int_of_str [28%N; 55%N] = inl ValueError ∧ int_of_str (lit "2x") = inl ValueError.
Proof. repeat split; reflexivity. Qed.

Example kb_slots_data :
  map (map snd) (kb_slots (lit "buildslot") (lit "monday"))
  = [[lit "buildslot:monday:0"]; [lit "buildslot:monday:1"];
     [lit "buildslot:monday:2"]; [lit "buildslot:monday:3"];
     [lit "buildslot:back:monday"]; [lit "menu:back"]].
Proof. reflexivity. Qed.

Example kb_weekdays_data :
  match kb_weekdays (lit "buildday") with
  | inr kb => map (map snd) kb
  | inl _ => []
  end
  = [[lit "buildday:monday"]; [lit "buildday:tuesday"];
     [lit "buildday:wednesday"]; [lit "buildday:thursday"];
     [lit "buildday:friday"]; [lit "menu:back"]].
Proof. reflexivity. Qed.

(** * Normalization *)

Create HintDb shape.

Lemma foldl_insert_lookup {A} (f : str → A) (l : list str) (m : gmap str A) (k : str) :
  foldl (λ out d, <[d := f d]> out) m l !! k
  = if decide (k ∈ l) then Some (f k) else m !! k.
Proof.
  revert m. induction l as [|d l IH]; intros m; cbn [foldl].
  - rewrite decide_False; [done | apply not_elem_of_nil].
  - rewrite IH. destruct (decide (k ∈ l)) as [Hl|Hl].
    + rewrite decide_True; [done | by right].
    + destruct (decide (d = k)) as [->|Hne].
      * rewrite lookup_insert_eq. rewrite decide_True; [done | by left].
      * rewrite lookup_insert_ne by done.
        rewrite decide_False; [done |]. intros Hin.
        apply elem_of_cons in Hin as [?|?]; congruence.
Qed.

Lemma weekdays_nodup : NoDup WEEKDAYS.
Proof. apply (bool_decide_unpack _). by vm_compute. Qed.

Lemma take_app_replicate {A} (n : nat) (l : list A) (x : A) :
  length l = n → take n (l ++ replicate n x) = l.
Proof. intros <-. by rewrite take_app_length. Qed.

Lemma default_lookup (d : str) :
  default_schedule !! d
  = if decide (d ∈ WEEKDAYS) then Some (replicate PAIR_COUNT (JStr DASH)) else None.
Proof.
  unfold default_schedule.
  by rewrite (foldl_insert_lookup (λ _, replicate PAIR_COUNT (JStr DASH))).
Qed.

Section Normalize.
Context (raw : json).

Lemma normalize_lookup (d : str) :
  _normalize_schedule raw !! d
  = if decide (d ∈ WEEKDAYS) then Some (day_slots raw d) else None.
Proof.
  unfold _normalize_schedule.
  rewrite (foldl_insert_lookup (day_slots raw)).
  - by destruct raw.
Qed.

Lemma day_slots_length (d : str) : length (day_slots raw d) = PAIR_COUNT.
Proof.
  unfold day_slots. rewrite length_take, length_app, length_replicate. lia.
Qed.

(** Slot [j] is the item [j] of the raw list when there is one, and the
    empty marker otherwise. *)
Lemma day_slots_lookup (d : str) (j : nat) :
  day_slots raw d !! j
  = if decide (j < PAIR_COUNT)%nat
    then Some (default (JStr DASH) (raw_day_list raw d !! j))
    else None.
Proof.
  unfold day_slots, raw_day_list. case_decide as Hj.
  - rewrite lookup_take_lt by done.
    assert (Hpad : ∀ l : list json,
      (l ++ replicate PAIR_COUNT (JStr DASH)) !! j
      = Some (default (JStr DASH) (l !! j))).
    { intros l. destruct (l !! j) as [x|] eqn:Hx.
      - by apply lookup_app_l_Some.
      - apply lookup_ge_None_1 in Hx. rewrite lookup_app_r by done.
        apply lookup_replicate_2. lia. }
    destruct (raw_dict raw !! d) as [[]|]; try apply Hpad.
    all: rewrite lookup_app_l by (rewrite length_replicate; lia).
    all: by apply lookup_replicate_2.
  - apply lookup_take_ge. lia.
Qed.

Lemma shaped_normalize : shaped (_normalize_schedule raw).
Proof.
  intros d. rewrite normalize_lookup. case_decide; [|done].
  eexists; split; [done | apply day_slots_length].
Qed.
End Normalize.

Lemma shaped_default : shaped default_schedule.
Proof.
  intros d. rewrite default_lookup. case_decide; [|done].
  eexists; split; [done | apply length_replicate].
Qed.

Lemma shaped_view (t : gmap str json) (key : str) : shaped (view t key).
Proof.
  unfold view. destruct (t !! key); [apply shaped_normalize | apply shaped_default].
Qed.

#[local] Hint Resolve shaped_normalize shaped_default shaped_view : shape.

Lemma shaped_lookup (s : schedule) (d : str) :
  shaped s → d ∈ WEEKDAYS → ∃ l, s !! d = Some l ∧ length l = PAIR_COUNT.
Proof. intros Hs Hd. specialize (Hs d). by rewrite decide_True in Hs. Qed.

Lemma shaped_missing (s : schedule) (d : str) :
  shaped s → d ∉ WEEKDAYS → s !! d = None.
Proof. intros Hs Hd. specialize (Hs d). by rewrite decide_False in Hs. Qed.

Lemma shaped_insert (s : schedule) (day : str) (l : list json) :
  shaped s → day ∈ WEEKDAYS → length l = PAIR_COUNT → shaped (<[day := l]> s).
Proof.
  intros Hs Hday Hl d. specialize (Hs d).
  destruct (decide (day = d)) as [<-|Hne].
  - rewrite decide_True by done. rewrite lookup_insert_eq. eauto.
  - by rewrite lookup_insert_ne.
Qed.

Lemma shaped_dom (s : schedule) : shaped s → dom s = list_to_set WEEKDAYS.
Proof.
  intros Hs. apply set_eq; intros d. rewrite elem_of_dom, elem_of_list_to_set.
  specialize (Hs d). case_decide.
  - destruct Hs as (l & -> & _). naive_solver.
  - rewrite Hs. split; [by intros [? ?] | done].
Qed.

Lemma shaped_size (s : schedule) : shaped s → size s = 5%nat.
Proof.
  intros Hs. rewrite <- size_dom, (shaped_dom s Hs).
  by rewrite size_list_to_set by apply weekdays_nodup.
Qed.

Lemma to_json_lookup (s : schedule) (d : str) :
  raw_dict (to_json s) !! d = JList <$> s !! d.
Proof. unfold to_json, raw_dict. by rewrite lookup_fmap. Qed.

(** A schedule of the right shape is a fixed point of normalization. *)
Lemma normalize_shaped (s : schedule) : shaped s → _normalize_schedule (to_json s) = s.
Proof.
  intros Hs. apply map_eq; intros d. rewrite normalize_lookup.
  specialize (Hs d). case_decide; [|done].
  destruct Hs as (l & Hl & Hlen). rewrite Hl. f_equal.
  unfold day_slots. rewrite to_json_lookup, Hl.
  cbn [fmap option_fmap option_map]. by apply take_app_replicate.
Qed.

Lemma normalize_idempotent (raw : json) :
  _normalize_schedule (to_json (_normalize_schedule raw)) = _normalize_schedule raw.
Proof. apply normalize_shaped. auto with shape. Qed.

Lemma well_formed_fixed (raw : json) :
  well_formed raw = true → to_json (_normalize_schedule raw) = raw.
Proof.
  destruct raw as [| | | | | |m]; try discriminate. cbn [well_formed].
  intros [Hdom Hdays]%andb_prop. apply bool_decide_eq_true in Hdom.
  rewrite forallb_forall in Hdays.
  unfold to_json. f_equal. apply map_eq; intros d.
  rewrite lookup_fmap, normalize_lookup. case_decide as Hd.
  - apply list_elem_of_In, Hdays in Hd.
    unfold day_slots. cbn [raw_dict fmap option_fmap option_map].
    destruct (m !! d) as [[]|]; try discriminate.
    apply bool_decide_eq_true in Hd. by rewrite take_app_replicate.
  - symmetry. apply not_elem_of_dom. rewrite Hdom.
    by rewrite elem_of_list_to_set.
Qed.

(** C1 (as amended). Normalization is idempotent and fixes the shape: for
    every raw value, normalizing the normalized schedule gives it back, and
    the result has exactly the five weekdays as keys, each mapped to a list
    of exactly four slots, where slot [j] is the item [j] of the raw day
    list (kept as it is, whatever its type) when the raw entry is a dict
    whose value for that day is a list with an item [j], and the empty
    marker otherwise. *)
Theorem normalize_idempotent_shape (raw : json) :
  _normalize_schedule (to_json (_normalize_schedule raw)) = _normalize_schedule raw
  ∧ dom (_normalize_schedule raw) = list_to_set WEEKDAYS
  ∧ size (_normalize_schedule raw) = 5%nat
  ∧ Forall (λ d, ∃ l,
        _normalize_schedule raw !! d = Some l
        ∧ length l = 4%nat
        ∧ ∀ j : nat, l !! j = if decide (j < 4)%nat
                              then Some (default (JStr (lit "—")) (raw_day_list raw d !! j))
                              else None)
      WEEKDAYS.
Proof.
  split; [apply normalize_idempotent|].
  split; [apply shaped_dom, shaped_normalize|].
  split; [apply shaped_size, shaped_normalize|].
  apply Forall_forall. intros d Hd. exists (day_slots raw d).
  rewrite normalize_lookup, decide_True by done.
  split; [done|]. split; [apply day_slots_length|].
  apply day_slots_lookup.
Qed.

(** C1, the claim as stated fails: a raw day list may hold items that are
    not strings, and normalization keeps them; here the first Monday slot
    of the result is the integer 1. *)
Lemma normalize_keeps_non_string :
  _normalize_schedule (JDict {[lit "monday" := JList [JInt 1]]}) !! lit "monday"
    = Some [JInt 1; JStr (lit "—"); JStr (lit "—"); JStr (lit "—")]
  ∧ forallb is_string [JInt 1; JStr (lit "—"); JStr (lit "—"); JStr (lit "—")] = false.
Proof. split; reflexivity. Qed.

(** * The storage functions *)

Lemma load_all_spec (w : world) : load_all w = (inr (table_of (file w)), w).
Proof. by destruct w as [[| |[|j]] ws]. Qed.

Section Store.
Context (user_id : Z) (w : world).

Let key := str_of_int user_id.
Let t := table_of (file w).

Lemma get_user_schedule_spec :
  let s := view t key in
  let t' := <[key := to_json s]> t in
  get_user_schedule user_id w
  = (inr s, {| file := Holds (Document (JDict t')); writes := t' :: writes w |}).
Proof.
  intros s t'. unfold get_user_schedule, mbind, Eff_bind.
  rewrite load_all_spec. subst s t'. unfold view. fold key t.
  by destruct (t !! key).
Qed.

Lemma set_user_schedule_spec (sched : json) :
  let t' := <[key := to_json (_normalize_schedule sched)]> t in
  set_user_schedule user_id sched w
  = (inr tt, {| file := Holds (Document (JDict t')); writes := t' :: writes w |}).
Proof.
  intros t'. unfold set_user_schedule, mbind, Eff_bind.
  by rewrite load_all_spec.
Qed.

Lemma get_user_schedule_stored (s : schedule) :
  t !! key = Some (to_json s) → shaped s →
  ∃ w', get_user_schedule user_id w = (inr s, w').
Proof.
  intros Ht Hs. eexists. rewrite get_user_schedule_spec.
  unfold view. by rewrite Ht, normalize_shaped.
Qed.
End Store.

Lemma view_well_formed (t : gmap str json) (key : str) (raw : json) :
  t !! key = Some raw → well_formed raw = true → to_json (view t key) = raw.
Proof. intros Ht Hwf. unfold view. rewrite Ht. by apply well_formed_fixed. Qed.

(** On the media of [world] the two embeddings of [load_all] agree. *)
Lemma load_all_on_world (w : world) :
  Disk.load_all (Disk.of_file (file w)) = ((load_all w).1, Disk.of_file (file w)).
Proof. by destruct w as [[| |[|j]] ws]. Qed.

(** C8. [load_all] fails soft whenever the existence probe of [DATA_FILE]
    answers: it returns normally and leaves the resource as it was.  It
    returns the empty mapping when the file is absent, when opening it
    raises, when reading or decoding it raises (not JSON, or a JSON document
    that the decoder refuses), and when the decoded top level is not an
    object; it returns the mapping when the decoder returns an object. *)
Theorem load_all_fails_soft (p : Disk.path_state) (present : bool) :
  Disk.path_exists p = (inr present, p) →
  ∃ t,
    Disk.load_all p = (inr t, p)
    ∧ (present = false → t = ∅)
    ∧ (∀ e, p = Disk.OpenFails e → t = ∅)
    ∧ (∀ e, p = Disk.Opens (Disk.Raises e) → t = ∅)
    ∧ (∀ j e, p = Disk.Opens (Disk.Refuses j e) → t = ∅)
    ∧ (∀ j, p = Disk.Opens (Disk.Returns j)
            → t = match j with JDict m => m | _ => ∅ end).
Proof.
  intros Hp.
  exists (match p with Disk.Opens (Disk.Returns (JDict m)) => m | _ => ∅ end).
  destruct p as [e| |e|[e|j e|j]]; unfold Disk.path_exists in Hp; simplify_eq;
    (split; [by try destruct j|]);
    repeat split; intros; by simplify_eq.
Qed.

Lemma load_all_fails_soft_witness :
  Disk.path_exists (Disk.Opens (Disk.Returns (JDict {[lit "7" := JNull]})))
  = (inr true, Disk.Opens (Disk.Returns (JDict {[lit "7" := JNull]})))
  ∧ ∃ t,
      Disk.load_all (Disk.Opens (Disk.Returns (JDict {[lit "7" := JNull]})))
      = (inr t, Disk.Opens (Disk.Returns (JDict {[lit "7" := JNull]})))
      ∧ t = {[lit "7" := JNull]}.
Proof.
  split; [reflexivity|].
  destruct (load_all_fails_soft (Disk.Opens (Disk.Returns (JDict {[lit "7" := JNull]}))) true
              eq_refl) as (t & Hrun & _ & _ & _ & _ & Ht).
  exists t. split; [exact Hrun | exact (Ht _ eq_refl)].
Defined.

(** C8, the claim as stated fails: the file holds a JSON object one of
    whose values is an integer literal of 4301 digits; [json.load] raises
    [ValueError] on it, the [except] clause of [load_all] takes over, and
    the result is the empty mapping, not the object. *)
Lemma load_all_drops_refused_object :
  Disk.load_all (Disk.Opens (Disk.Refuses (JDict {[lit "n" := JInt (10 ^ 4300)]}) ValueError))
  = (inr ∅, Disk.Opens (Disk.Refuses (JDict {[lit "n" := JInt (10 ^ 4300)]}) ValueError))
  ∧ ({[lit "n" := JInt (10 ^ 4300)]} : gmap str json) ≠ ∅.
Proof. split; [reflexivity | apply map_non_empty_singleton]. Qed.

(** C2. For a user id that the persisted table does not hold (the file may
    be absent altogether), [get_user_schedule] returns the default
    schedule, whose keys are the five weekdays, each with four empty
    markers, and persists it: [load_all] afterwards yields a table with the
    stringified user id mapped to that default schedule. *)
Theorem get_user_schedule_unseen (user_id : Z) (w : world) (t : gmap str json) :
  load_all w = (inr t, w) →
  t !! str_of_int user_id = None →
  ∃ w' t',
    get_user_schedule user_id w = (inr default_schedule, w')
    ∧ dom default_schedule = list_to_set WEEKDAYS
    ∧ Forall (λ d, default_schedule !! d
                   = Some [JStr (lit "—"); JStr (lit "—"); JStr (lit "—"); JStr (lit "—")])
             WEEKDAYS
    ∧ load_all w' = (inr t', w')
    ∧ t' !! str_of_int user_id = Some (to_json default_schedule).
Proof.
  intros Hload Hnone. rewrite load_all_spec in Hload.
  injection Hload as <-.
  eexists _, _. rewrite get_user_schedule_spec. unfold view. rewrite Hnone.
  split; [done|].
  split; [apply shaped_dom, shaped_default|].
  split.
  { apply Forall_forall. intros d Hd. by rewrite default_lookup, decide_True. }
  rewrite load_all_spec. split; [done|].
  cbn [file table_of]. apply lookup_insert_eq.
Qed.

Lemma get_user_schedule_unseen_witness :
  load_all (World Absent []) = (inr ∅, World Absent [])
  ∧ (∅ : gmap str json) !! str_of_int 42 = None
  ∧ ∃ w' t',
      get_user_schedule 42 (World Absent []) = (inr default_schedule, w')
      ∧ dom default_schedule = list_to_set WEEKDAYS
      ∧ Forall (λ d, default_schedule !! d
                     = Some [JStr (lit "—"); JStr (lit "—"); JStr (lit "—"); JStr (lit "—")])
               WEEKDAYS
      ∧ load_all w' = (inr t', w')
      ∧ t' !! str_of_int 42 = Some (to_json default_schedule).
Proof.
  split; [reflexivity|]. split; [reflexivity|].
  apply (get_user_schedule_unseen 42 (World Absent []) ∅); reflexivity.
Defined.

(** C3. Round trip: for every user id and every schedule value,
    [set_user_schedule] followed by [get_user_schedule] returns the
    normalization of that value. *)
Theorem set_then_get (user_id : Z) (sched : json) (w : world) :
  ∃ w1 w2,
    set_user_schedule user_id sched w = (inr tt, w1)
    ∧ get_user_schedule user_id w1 = (inr (_normalize_schedule sched), w2).
Proof.
  eexists _, _. rewrite set_user_schedule_spec. split; [done|].
  rewrite get_user_schedule_spec. cbn [file table_of].
  unfold view. by rewrite lookup_insert_eq, normalize_idempotent.
Qed.

(** C9 (as amended). [get_user_schedule] has no path without a write: it
    always hands the whole table to [save_all], exactly once.  When the
    user's entry is present and already well formed (exactly the five
    weekdays, each a list of four items), the rewritten table is the table
    that was there before, and the entry is what it returns. *)
Theorem get_user_schedule_always_saves (user_id : Z) (w : world) (t : gmap str json) :
  load_all w = (inr t, w) →
  ∃ s w' t',
    get_user_schedule user_id w = (inr s, w')
    ∧ writes w' = t' :: writes w
    ∧ load_all w' = (inr t', w')
    ∧ (∀ raw, t !! str_of_int user_id = Some raw → well_formed raw = true →
         to_json s = raw ∧ t' = t ∧ file w' = file w).
Proof.
  intros Hload. rewrite load_all_spec in Hload. injection Hload as <-.
  eexists _, _, _. rewrite get_user_schedule_spec.
  split; [done|]. split; [done|]. rewrite load_all_spec. split; [done|].
  intros raw Hraw Hwf. cbn [file].
  rewrite (view_well_formed _ _ _ Hraw Hwf).
  rewrite (insert_id _ _ _ Hraw). split; [done|]. split; [done|].
  destruct w as [[| |[|[]]] ws]; cbn [file table_of] in *;
    try by rewrite lookup_empty in Hraw.
  done.
Qed.

Lemma table7_entry : table7 !! str_of_int 7 = Some (to_json default_schedule).
Proof. apply lookup_singleton_eq. Qed.

Lemma default_well_formed : well_formed (to_json default_schedule) = true.
Proof. by vm_compute. Qed.

Lemma get_user_schedule_always_saves_witness :
  load_all world7 = (inr table7, world7)
  ∧ ∃ s w' t',
      get_user_schedule 7 world7 = (inr s, w')
      ∧ writes w' = t' :: writes world7
      ∧ load_all w' = (inr t', w')
      ∧ (∀ raw, table7 !! str_of_int 7 = Some raw → well_formed raw = true →
           to_json s = raw ∧ t' = table7 ∧ file w' = file world7).
Proof.
  split; [reflexivity|].
  apply (get_user_schedule_always_saves 7 world7 table7). reflexivity.
Defined.

(** C9, the claim as stated fails: with user 7 present and well formed,
    [get_user_schedule] still writes the table; the log of writes, empty
    before the call, holds one table after it. *)
Lemma get_user_schedule_rewrites_well_formed :
  table7 !! str_of_int 7 = Some (to_json default_schedule)
  ∧ well_formed (to_json default_schedule) = true
  ∧ writes world7 = []
  ∧ ∃ s w', get_user_schedule 7 world7 = (inr s, w') ∧ writes w' = [table7].
Proof.
  split; [apply table7_entry|]. split; [apply default_well_formed|].
  split; [done|]. eexists _, _. rewrite get_user_schedule_spec.
  split; [done|]. cbn [writes file world7 table_of].
  apply (f_equal (λ x, [x])).
  rewrite (view_well_formed _ _ _ table7_entry default_well_formed).
  apply insert_id, table7_entry.
Qed.

(** * Writing one slot *)

Lemma list_index_in_range (n : nat) (i : Z) :
  0 ≤ i < Z.of_nat n → list_index n i = inr (Z.to_nat i).
Proof.
  intros Hi. unfold list_index.
  destruct (Z.ltb_spec i 0); [lia|].
  destruct (Z.leb_spec 0 i); [|lia].
  destruct (Z.ltb_spec i (Z.of_nat n)); [done | lia].
Qed.

Lemma list_index_beyond (n : nat) (i : Z) :
  Z.of_nat n ≤ i → list_index n i = inl IndexError.
Proof.
  intros Hi. unfold list_index.
  destruct (Z.ltb_spec i 0); [lia|].
  destruct (Z.ltb_spec i (Z.of_nat n)); [lia|].
  by rewrite andb_false_r.
Qed.

Lemma or_dash_idemp (x : str) : or_dash (or_dash x) = or_dash x.
Proof. by destruct x. Qed.

Lemma slot_insert_other (s : schedule) (day : str) (n : nat) (l : list json)
    (v : json) (d : str) (j : nat) :
  s !! day = Some l → (d, j) ≠ (day, n) →
  slot (<[day := <[n := v]> l]> s) d j = slot s d j.
Proof.
  intros Hl Hne. unfold slot.
  destruct (decide (day = d)) as [<-|Hd].
  - rewrite lookup_insert_eq, Hl. cbn [mbind option_bind].
    apply list_lookup_insert_ne. congruence.
  - by rewrite lookup_insert_ne.
Qed.

Lemma slot_insert_same (s : schedule) (day : str) (n : nat) (l : list json) (v : json) :
  (n < length l)%nat → slot (<[day := <[n := v]> l]> s) day n = Some v.
Proof.
  intros Hn. unfold slot. rewrite lookup_insert_eq. cbn [mbind option_bind].
  by apply list_lookup_insert_eq.
Qed.

Lemma stored_slot_to_json (t : gmap str json) (key : str) (s : schedule) (d : str) (j : nat) :
  t !! key = Some (to_json s) → stored_slot t key d j = slot s d j.
Proof.
  intros Ht. unfold stored_slot, slot. rewrite Ht. cbn [to_json].
  rewrite lookup_fmap. by destruct (s !! d).
Qed.

(** The two writes of [set_user_day_slot], spelled out: the one made by
    [get_user_schedule] and the one made by [set_user_schedule]. *)
Lemma set_user_day_slot_spec (user_id : Z) (day : str) (i : Z) (value : str) (w : world) :
  day ∈ WEEKDAYS → 0 ≤ i < Z.of_nat PAIR_COUNT →
  let t := table_of (file w) in
  let key := str_of_int user_id in
  let s := view t key in
  ∃ l, s !! day = Some l ∧ length l = PAIR_COUNT ∧
  let s' := <[day := <[Z.to_nat i := JStr (or_dash value)]> l]> s in
  let t1 := <[key := to_json s]> t in
  let t2 := <[key := to_json s']> t1 in
  set_user_day_slot user_id day i value w
  = (inr s', {| file := Holds (Document (JDict t2)); writes := t2 :: t1 :: writes w |}).
Proof.
  intros Hday Hi t key s.
  destruct (shaped_lookup s day (shaped_view t key) Hday) as (l & Hl & Hlen).
  exists l. split; [done|]. split; [done|]. intros s' t1 t2.
  unfold set_user_day_slot, mbind, Eff_bind.
  rewrite get_user_schedule_spec. fold t key s.
  unfold eval, dict_getitem. rewrite Hl.
  unfold list_setitem, mbind, exn_bind. rewrite Hlen, list_index_in_range by done.
  cbn [mret exn_ret]. fold s'.
  rewrite set_user_schedule_spec. cbn [file writes table_of].
  rewrite normalize_shaped; [done|].
  apply shaped_insert; [apply shaped_view | done |].
  by rewrite length_insert.
Qed.

Lemma set_user_day_slot_result (user_id : Z) (day : str) (i : Z) (value : str) (w : world) :
  day ∈ WEEKDAYS → 0 ≤ i < 4 →
  ∃ s' w',
    set_user_day_slot user_id day i value w = (inr s', w')
    ∧ shaped s'
    ∧ slot s' day (Z.to_nat i) = Some (JStr (or_dash value))
    ∧ table_of (file w') !! str_of_int user_id = Some (to_json s').
Proof.
  intros Hday Hi.
  destruct (set_user_day_slot_spec user_id day i value w Hday Hi)
    as (l & Hl & Hlen & Hrun). cbn zeta in Hrun.
  eexists _, _. split; [exact Hrun|]. split; [|split].
  - apply shaped_insert; [auto with shape | done | by rewrite length_insert].
  - apply slot_insert_same. rewrite Hlen. unfold PAIR_COUNT. lia.
  - cbn [file table_of]. apply lookup_insert_eq.
Qed.

(** What a slot write leaves alone. *)
Lemma set_user_day_slot_frame (user_id : Z) (day : str) (i : Z) (value : str) (w : world) :
  day ∈ WEEKDAYS → 0 ≤ i < 4 →
  let t := table_of (file w) in
  let key := str_of_int user_id in
  ∃ s' w',
    set_user_day_slot user_id day i value w = (inr s', w')
    ∧ (∀ k, k ≠ key → table_of (file w') !! k = t !! k)
    ∧ (∀ d j, (d, j) ≠ (day, Z.to_nat i) →
         stored_slot (table_of (file w')) key d j = slot (view t key) d j).
Proof.
  intros Hday Hi t key.
  destruct (set_user_day_slot_spec user_id day i value w Hday Hi)
    as (l & Hl & Hlen & Hrun). cbn zeta in Hrun.
  eexists _, _. split; [exact Hrun|]. cbn [file table_of]. split.
  - intros k Hk. by rewrite !lookup_insert_ne.
  - intros d j Hne.
    rewrite (stored_slot_to_json _ _ _ d j (lookup_insert_eq _ _ _)).
    by apply slot_insert_other.
Qed.

Lemma set_user_day_slot_unknown_day (user_id : Z) (day : str) (i : Z) (value : str) (w : world) :
  day ∉ WEEKDAYS →
  (set_user_day_slot user_id day i value w).1 = inl (KeyError day).
Proof.
  intros Hday. unfold set_user_day_slot, mbind, Eff_bind.
  rewrite get_user_schedule_spec. unfold eval, dict_getitem.
  by rewrite (shaped_missing _ day (shaped_view _ _) Hday).
Qed.

Lemma set_user_day_slot_beyond (user_id : Z) (day : str) (i : Z) (value : str) (w : world) :
  day ∈ WEEKDAYS → 4 ≤ i →
  (set_user_day_slot user_id day i value w).1 = inl IndexError.
Proof.
  intros Hday Hi. unfold set_user_day_slot, mbind, Eff_bind.
  rewrite get_user_schedule_spec. unfold eval, dict_getitem.
  destruct (shaped_lookup _ day (shaped_view (table_of (file w)) (str_of_int user_id)) Hday)
    as (l & -> & Hlen).
  unfold list_setitem, mbind, exn_bind.
  by rewrite Hlen, list_index_beyond.
Qed.

(** C10. Slot access inside [set_user_day_slot] is safe: the schedule that
    [get_user_schedule] returns always has every weekday as a key, mapped
    to a list of exactly four items, so for a day among the five weekdays
    and an index in 0..3 the call returns normally.  Outside that
    precondition nothing guards the access: a day that is not a weekday
    raises [KeyError] and an index of 4 or more raises [IndexError]. *)
Theorem set_slot_access_safe (user_id : Z) (day : str) (i : Z) (value : str) (w : world) :
  day ∈ WEEKDAYS →
  0 ≤ i < 4 →
  ∃ s w0 s' w',
    get_user_schedule user_id w = (inr s, w0)
    ∧ dom s = list_to_set WEEKDAYS
    ∧ Forall (λ d, ∃ l, s !! d = Some l ∧ length l = 4%nat) WEEKDAYS
    ∧ set_user_day_slot user_id day i value w = (inr s', w')
    ∧ (∀ d', d' ∉ WEEKDAYS →
         (set_user_day_slot user_id d' i value w).1 = inl (KeyError d'))
    ∧ (∀ i', 4 ≤ i' →
         (set_user_day_slot user_id day i' value w).1 = inl IndexError).
Proof.
  intros Hday Hi.
  destruct (set_user_day_slot_result user_id day i value w Hday Hi)
    as (s' & w' & Hrun & _).
  eexists _, _, s', w'. rewrite get_user_schedule_spec.
  split; [done|].
  split; [apply shaped_dom; auto with shape|].
  split.
  { apply Forall_forall. intros d Hd. apply shaped_lookup; auto with shape. }
  split; [done|]. split.
  - intros d' Hd'. by apply set_user_day_slot_unknown_day.
  - intros i' Hi'. by apply set_user_day_slot_beyond.
Qed.

Lemma monday_weekday : lit "monday" ∈ WEEKDAYS.
Proof. by left. Qed.

Lemma set_slot_access_safe_witness :
  lit "monday" ∈ WEEKDAYS
  ∧ 0 ≤ 0 < 4
  ∧ ∃ s w0 s' w',
      get_user_schedule 7 (World Absent []) = (inr s, w0)
      ∧ dom s = list_to_set WEEKDAYS
      ∧ Forall (λ d, ∃ l, s !! d = Some l ∧ length l = 4%nat) WEEKDAYS
      ∧ set_user_day_slot 7 (lit "monday") 0 (lit "Math") (World Absent []) = (inr s', w')
      ∧ (∀ d', d' ∉ WEEKDAYS →
           (set_user_day_slot 7 d' 0 (lit "Math") (World Absent [])).1 = inl (KeyError d'))
      ∧ (∀ i', 4 ≤ i' →
           (set_user_day_slot 7 (lit "monday") i' (lit "Math") (World Absent [])).1
           = inl IndexError).
Proof.
  split; [apply monday_weekday|]. split; [lia|].
  apply (set_slot_access_safe 7 (lit "monday") 0 (lit "Math") (World Absent []));
    [apply monday_weekday | lia].
Defined.

(** C5 (as amended). Slot isolation: [set_user_day_slot] for user [u], a
    weekday and an index in 0..3 leaves every other user's entry in the
    table identical to what was persisted before, and leaves every other
    slot of user [u] equal to what [get_user_schedule] would have returned
    for it before the call, that is, to the normalized view of the prior
    entry; when the prior entry of [u] was already well formed (exactly the
    five weekdays, four items each), those slots are identical to their
    prior persisted state. *)
Theorem set_slot_frame (user_id : Z) (day : str) (i : Z) (value : str)
    (w : world) (t : gmap str json) :
  load_all w = (inr t, w) →
  day ∈ WEEKDAYS →
  0 ≤ i < 4 →
  ∃ s s' w0 w' t',
    get_user_schedule user_id w = (inr s, w0)
    ∧ set_user_day_slot user_id day i value w = (inr s', w')
    ∧ load_all w' = (inr t', w')
    ∧ (∀ k, k ≠ str_of_int user_id → t' !! k = t !! k)
    ∧ (∀ d j, (d, j) ≠ (day, Z.to_nat i) →
         stored_slot t' (str_of_int user_id) d j = slot s d j)
    ∧ (∀ raw, t !! str_of_int user_id = Some raw → well_formed raw = true →
         ∀ d j, (d, j) ≠ (day, Z.to_nat i) →
           stored_slot t' (str_of_int user_id) d j
           = stored_slot t (str_of_int user_id) d j).
Proof.
  intros Hload Hday Hi. rewrite load_all_spec in Hload. injection Hload as <-.
  destruct (set_user_day_slot_frame user_id day i value w Hday Hi)
    as (s' & w' & Hrun & Hothers & Hslots).
  eexists _, s', _, w', _. rewrite get_user_schedule_spec, load_all_spec.
  split; [done|]. split; [done|]. split; [done|].
  split; [done|]. split; [done|].
  intros raw Hraw Hwf d j Hne. rewrite Hslots by done.
  symmetry. apply stored_slot_to_json.
  rewrite Hraw. f_equal. symmetry. by apply view_well_formed.
Qed.

Lemma set_slot_frame_witness :
  load_all world7 = (inr table7, world7)
  ∧ lit "monday" ∈ WEEKDAYS
  ∧ 0 ≤ 0 < 4
  ∧ ∃ s s' w0 w' t',
      get_user_schedule 7 world7 = (inr s, w0)
      ∧ set_user_day_slot 7 (lit "monday") 0 (lit "Math") world7 = (inr s', w')
      ∧ load_all w' = (inr t', w')
      ∧ (∀ k, k ≠ str_of_int 7 → t' !! k = table7 !! k)
      ∧ (∀ d j, (d, j) ≠ (lit "monday", Z.to_nat 0) →
           stored_slot t' (str_of_int 7) d j = slot s d j)
      ∧ (∀ raw, table7 !! str_of_int 7 = Some raw → well_formed raw = true →
           ∀ d j, (d, j) ≠ (lit "monday", Z.to_nat 0) →
             stored_slot t' (str_of_int 7) d j
             = stored_slot table7 (str_of_int 7) d j).
Proof.
  split; [reflexivity|]. split; [apply monday_weekday|]. split; [lia|].
  apply (set_slot_frame 7 (lit "monday") 0 (lit "Math") world7 table7);
    [reflexivity | apply monday_weekday | lia].
Defined.

Lemma short_table_view :
  slot (view short_table (str_of_int 7)) (lit "monday") 1 = Some (JStr (lit "—"))
  ∧ slot (view short_table (str_of_int 7)) (lit "friday") 0 = Some (JStr (lit "—")).
Proof. split; reflexivity. Qed.

(** C5, the claim as stated fails on a table whose entry for the user is
    not normalized: user 7 is stored with a one-item Monday and no Friday;
    writing Tuesday's first slot also changes Monday's second slot and
    Friday's first slot, which were not there, into empty markers. *)
Lemma set_slot_rewrites_other_days :
  ∃ s w' after,
    set_user_day_slot 7 (lit "tuesday") 0 (lit "Art")
      (World (Holds (Document (JDict short_table))) []) = (inr s, w')
    ∧ load_all w' = (inr after, w')
    ∧ stored_slot short_table (str_of_int 7) (lit "monday") 1 = None
    ∧ stored_slot after (str_of_int 7) (lit "monday") 1 = Some (JStr (lit "—"))
    ∧ stored_slot short_table (str_of_int 7) (lit "friday") 0 = None
    ∧ stored_slot after (str_of_int 7) (lit "friday") 0 = Some (JStr (lit "—")).
Proof.
  destruct (set_user_day_slot_frame 7 (lit "tuesday") 0 (lit "Art")
              (World (Holds (Document (JDict short_table))) []))
    as (s & w' & Hrun & _ & Hslots); [by right; left | lia |].
  cbn [file table_of] in Hslots. destruct short_table_view as [Hmon Hfri].
  exists s, w', (table_of (file w')). rewrite load_all_spec.
  split; [done|]. split; [done|]. split; [reflexivity|].
  split; [by rewrite Hslots|]. split; [reflexivity|].
  by rewrite Hslots.
Qed.

(** * The handlers *)

Lemma weekday_label (d : str) :
  d ∈ WEEKDAYS → ∃ label, dict_getitem WEEKDAY_RU d = inr label.
Proof.
  unfold WEEKDAYS. intros Hd.
  repeat (apply elem_of_cons in Hd as [->|Hd]; [by eexists|]).
  by apply elem_of_nil in Hd.
Qed.

Lemma format_day_ok (s : schedule) (d : str) :
  d ∈ WEEKDAYS → ∃ t, format_day s d = inr t.
Proof.
  intros [label Hlabel]%weekday_label. unfold format_day.
  rewrite Hlabel. by eexists.
Qed.

Lemma in_range_true (i : Z) : 0 ≤ i < 4 → in_range i PAIR_COUNT = true.
Proof.
  intros Hi. unfold in_range, PAIR_COUNT.
  apply andb_true_intro. split; [apply Z.leb_le | apply Z.ltb_lt]; lia.
Qed.

Section Text_entry.
Context (user_id : Z) (message : option str) (c : ctx).

Lemma on_build_text_saves (day : str) (i : Z) :
  day ∈ WEEKDAYS → 0 ≤ i < 4 →
  build_day (user_data c) = Some day → build_slot (user_data c) = Some i →
  ∃ s' w' a,
    set_user_day_slot user_id day i (or_dash (message_text message)) (store c)
    = (inr s', w')
    ∧ on_build_text user_id message c
      = (inr STATE_MENU,
         {| store := w'; user_data := user_data c; sent := a :: sent c |}).
Proof.
  intros Hday Hi Hbd Hbs.
  destruct (set_user_day_slot_result user_id day i (or_dash (message_text message))
              (store c) Hday Hi) as (s' & w' & Hrun & _).
  destruct (format_day_ok s' day Hday) as [t Ht].
  eexists s', w', _. split; [done|].
  step_handler on_build_text. rewrite Hbd, Hbs.
  rewrite bool_decide_eq_true_2, in_range_true by done. cbn [negb orb].
  unfold storage. rewrite Hrun. unfold eval. by rewrite Ht.
Qed.

Lemma on_edit_text_saves (day : str) (i : Z) :
  day ∈ WEEKDAYS → 0 ≤ i < 4 →
  edit_day (user_data c) = Some day → edit_slot (user_data c) = Some i →
  ∃ s' w' a,
    set_user_day_slot user_id day i (or_dash (message_text message)) (store c)
    = (inr s', w')
    ∧ on_edit_text user_id message c
      = (inr STATE_MENU,
         {| store := w'; user_data := user_data c; sent := a :: sent c |}).
Proof.
  intros Hday Hi Hbd Hbs.
  destruct (set_user_day_slot_result user_id day i (or_dash (message_text message))
              (store c) Hday Hi) as (s' & w' & Hrun & _).
  destruct (format_day_ok s' day Hday) as [t Ht].
  eexists s', w', _. split; [done|].
  step_handler on_edit_text. rewrite Hbd, Hbs.
  rewrite bool_decide_eq_true_2, in_range_true by done. cbn [negb orb].
  unfold storage. rewrite Hrun. unfold eval. by rewrite Ht.
Qed.

Lemma on_text_saves (f : flow) (day : str) (i : Z) :
  day ∈ WEEKDAYS → 0 ≤ i < 4 →
  pending f (user_data c) = (Some day, Some i) →
  ∃ s' w' a,
    set_user_day_slot user_id day i (or_dash (message_text message)) (store c)
    = (inr s', w')
    ∧ on_text f user_id message c
      = (inr STATE_MENU,
         {| store := w'; user_data := user_data c; sent := a :: sent c |}).
Proof.
  intros Hday Hi Hp. destruct f; injection Hp as Hd Hs.
  - by apply on_build_text_saves.
  - by apply on_edit_text_saves.
Qed.

Lemma guard_fires (d : str) (i : Z) :
  pending_ok (Some d, Some i) = false →
  negb (bool_decide (d ∈ WEEKDAYS)) || negb (in_range i PAIR_COUNT) = true.
Proof.
  cbn [pending_ok]. unfold in_range, PAIR_COUNT.
  destruct (bool_decide (d ∈ WEEKDAYS)); [|done]. cbn [negb orb andb].
  intros Hi%bool_decide_eq_false. apply negb_true_iff, andb_false_iff.
  destruct (Z.leb_spec 0 i); [|by left]. right. apply Z.ltb_ge. lia.
Qed.

Lemma on_text_desync (f : flow) :
  pending_ok (pending f (user_data c)) = false →
  on_text f user_id message c
  = (inr STATE_MENU,
     {| store := store c; user_data := user_data c;
        sent := ReplyText STATE_LOST kb_menu :: sent c |}).
Proof.
  intros Hp. destruct f; cbn [on_text pending] in *.
  - step_handler on_build_text.
    destruct (build_day (user_data c)) as [d|], (build_slot (user_data c)) as [i|];
      try done.
    by rewrite guard_fires.
  - step_handler on_edit_text.
    destruct (edit_day (user_data c)) as [d|], (edit_slot (user_data c)) as [i|];
      try done.
    by rewrite guard_fires.
Qed.
End Text_entry.

Lemma or_dash_trimmed (message : option str) :
  or_dash (or_dash (message_text message)) = trimmed_or_dash message.
Proof.
  rewrite or_dash_idemp. unfold trimmed_or_dash, message_text.
  by destruct (strip (default [] message)).
Qed.

Lemma trimmed_or_dash_id (t : str) :
  t ≠ [] → strip t = t → trimmed_or_dash (Some t) = t.
Proof.
  intros Ht Hs.
  change (trimmed_or_dash (Some t))
    with (if decide (strip t = []) then lit "—" else strip t).
  rewrite Hs. by rewrite decide_False.
Qed.

(** C4 (as amended). For a weekday and an index in 0..3,
    [set_user_day_slot] stores the text it is given as it is, without
    trimming, or the empty marker when that text is empty, persists the
    schedule and returns it.  The trimming is done by the text-entry
    handlers before they call it: through [on_build_text] and
    [on_edit_text] with that pending selection, the slot ends up holding
    the message text with the blanks around it removed, or the empty
    marker when nothing is left (as for an empty or all-blank text). *)
Theorem set_slot_value (user_id : Z) (day : str) (i : Z) (value : str) (w : world) :
  day ∈ WEEKDAYS →
  0 ≤ i < 4 →
  (∃ s' w' t',
     set_user_day_slot user_id day i value w = (inr s', w')
     ∧ slot s' day (Z.to_nat i)
       = Some (JStr (if decide (value = []) then lit "—" else value))
     ∧ load_all w' = (inr t', w')
     ∧ t' !! str_of_int user_id = Some (to_json s'))
  ∧ ∀ (f : flow) (message : option str) (c : ctx),
      pending f (user_data c) = (Some day, Some i) →
      ∃ c' t',
        on_text f user_id message c = (inr STATE_MENU, c')
        ∧ load_all (store c') = (inr t', store c')
        ∧ stored_slot t' (str_of_int user_id) day (Z.to_nat i)
          = Some (JStr (trimmed_or_dash message)).
Proof.
  intros Hday Hi. split.
  - destruct (set_user_day_slot_result user_id day i value w Hday Hi)
      as (s' & w' & Hrun & _ & Hslot & Ht).
    exists s', w', (table_of (file w')). rewrite load_all_spec.
    split; [done|]. split; [|done]. rewrite Hslot. by destruct value.
  - intros f message c Hp.
    destruct (on_text_saves user_id message c f day i Hday Hi Hp)
      as (s' & w' & a & Hrun & Hh).
    destruct (set_user_day_slot_result user_id day i (or_dash (message_text message))
                (store c) Hday Hi) as (s2 & w2 & Hrun2 & _ & Hslot & Ht).
    rewrite Hrun in Hrun2. injection Hrun2 as <- <-.
    eexists _, _. split; [exact Hh|]. cbn [store]. rewrite load_all_spec.
    split; [done|].
    rewrite (stored_slot_to_json _ _ _ _ _ Ht), Hslot.
    by rewrite or_dash_trimmed.
Qed.

Lemma set_slot_value_witness :
  lit "monday" ∈ WEEKDAYS
  ∧ 0 ≤ 0 < 4
  ∧ (∃ s' w' t',
       set_user_day_slot 7 (lit "monday") 0 [] (World Absent []) = (inr s', w')
       ∧ slot s' (lit "monday") (Z.to_nat 0) = Some (JStr (lit "—"))
       ∧ load_all w' = (inr t', w')
       ∧ t' !! str_of_int 7 = Some (to_json s'))
  ∧ ∃ c' t',
      on_text Building 7 (Some (lit "   ")) monday_pending = (inr STATE_MENU, c')
      ∧ load_all (store c') = (inr t', store c')
      ∧ stored_slot t' (str_of_int 7) (lit "monday") (Z.to_nat 0)
        = Some (JStr (lit "—")).
Proof.
  split; [apply monday_weekday|]. split; [lia|].
  destruct (set_slot_value 7 (lit "monday") 0 [] (World Absent []))
    as [Hstore Htext]; [apply monday_weekday | lia |].
  split; [exact Hstore|].
  exact (Htext Building (Some (lit "   ")) monday_pending eq_refl).
Defined.

(** C4, the claim as stated fails: [set_user_day_slot] itself does not
    trim; given three blanks it stores the three blanks, not the empty
    marker. *)
Lemma set_user_day_slot_keeps_blanks :
  ∃ s w' t',
    set_user_day_slot 7 (lit "monday") 0 (lit "   ") (World Absent []) = (inr s, w')
    ∧ load_all w' = (inr t', w')
    ∧ stored_slot t' (str_of_int 7) (lit "monday") 0 = Some (JStr (lit "   "))
    ∧ lit "   " ≠ lit "—".
Proof.
  destruct (set_user_day_slot_result 7 (lit "monday") 0 (lit "   ") (World Absent []))
    as (s & w' & Hrun & _ & Hslot & Htab); [apply monday_weekday | lia |].
  exists s, w', (table_of (file w')). rewrite load_all_spec.
  split; [done|]. split; [done|].
  rewrite (stored_slot_to_json _ _ _ _ _ Htab).
  split; [exact Hslot | discriminate].
Qed.

(** * The conversation *)

Lemma select_text (f : flow) (t : str) :
  t ≠ [] →
  conversation_select (Some (text_state f)) (Message t)
  = Some (λ user_id, returning (on_text f user_id (Some t))).
Proof. intros Ht. destruct t; [done|]. by destruct f. Qed.

Lemma process_text (f : flow) (user_id : Z) (t : str) (c : ctx) (es : list exn) :
  t ≠ [] →
  process_update user_id (Message t)
    {| current := Some (text_state f); context := c; errors := es |}
  = match on_text f user_id (Some t) c with
    | (inr s, c') => {| current := Some s; context := c'; errors := es |}
    | (inl e, c') => {| current := Some (text_state f); context := c'; errors := e :: es |}
    end.
Proof.
  intros Ht. unfold process_update. cbn [current context errors].
  rewrite select_text by done. unfold returning, mbind, Eff_bind.
  by destruct (on_text f user_id (Some t) c) as [[e|s] c'].
Qed.

(** C6. Desync guard: a text message that arrives in the text-entry state
    of the build or of the edit flow while the pending selection of that
    flow is missing, or names a day outside the five weekdays or a slot
    index outside 0..3, is answered with the restart notice and the menu
    keyboard and moves the conversation to the menu state; the storage
    (file and write log) and the session are left as they were, and no
    error is raised.  The handler does so for any message text, also an
    absent one. *)
Theorem desync_guard (f : flow) (user_id : Z) (t : str) (c : ctx) (es : list exn) :
  pending_ok (pending f (user_data c)) = false →
  t ≠ [] →
  let c' := {| store := store c; user_data := user_data c;
               sent := ReplyText [Lit (lit "Состояние сбилось. Нажмите /start.")] kb_menu
                       :: sent c |} in
  (∀ message, on_text f user_id message c = (inr STATE_MENU, c'))
  ∧ process_update user_id (Message t)
      {| current := Some (text_state f); context := c; errors := es |}
    = {| current := Some STATE_MENU; context := c'; errors := es |}.
Proof.
  intros Hp Ht c'. split.
  - intros message. by apply on_text_desync.
  - rewrite process_text by done. by rewrite on_text_desync.
Qed.

Lemma desync_guard_witness :
  pending_ok (pending Editing (user_data fresh_ctx)) = false
  ∧ lit "Math" ≠ []
  ∧ let c' := {| store := World Absent []; user_data := fresh_session;
                 sent := [ReplyText [Lit (lit "Состояние сбилось. Нажмите /start.")]
                                    kb_menu] |} in
    (∀ message, on_text Editing 7 message fresh_ctx = (inr STATE_MENU, c'))
    ∧ process_update 7 (Message (lit "Math"))
        {| current := Some STATE_EDIT_TEXT; context := fresh_ctx; errors := [] |}
      = {| current := Some STATE_MENU; context := c'; errors := [] |}.
Proof.
  split; [reflexivity|]. split; [discriminate|].
  apply (desync_guard Editing 7 (lit "Math") fresh_ctx []); [reflexivity | discriminate].
Defined.

Lemma step_menu_build (user_id : Z) (c : ctx) (es : list exn) :
  ∃ a,
    process_update user_id (CallbackQuery (lit "menu:build"))
      {| current := Some STATE_MENU; context := c; errors := es |}
    = {| current := Some STATE_BUILD_DAY;
         context := {| store := store c; user_data := user_data c;
                       sent := a :: Answer :: sent c |};
         errors := es |}.
Proof. eexists. reflexivity. Qed.

Lemma on_build_day_ok (user_id : Z) (day : str) (c : ctx) :
  day ∈ WEEKDAYS →
  ∃ s w' a,
    get_user_schedule user_id (store c) = (inr s, w')
    ∧ on_build_day user_id (lit "buildday" ++ lit ":" ++ day) c
      = (inr STATE_BUILD_SLOT,
         {| store := w'; user_data := set_build_day day (user_data c);
            sent := a :: Answer :: sent c |}).
Proof.
  intros Hday.
  destruct (get_user_schedule user_id (store c)) as [[e|s] w'] eqn:Hget.
  { by rewrite get_user_schedule_spec in Hget. }
  destruct (format_day_ok s day Hday) as [t Ht].
  eexists s, w', _. split; [done|].
  step_handler on_build_day.
  replace (split_max (lit "buildday" ++ lit ":" ++ day) 1) with [lit "buildday"; day]
    by (by destruct day).
  cbn [eval unpack2]. unfold storage. cbn [store user_data sent]. rewrite Hget.
  unfold eval. by rewrite Ht.
Qed.

Lemma step_build_day (user_id : Z) (day : str) (c : ctx) (es : list exn) :
  day ∈ WEEKDAYS →
  ∃ s w' a,
    get_user_schedule user_id (store c) = (inr s, w')
    ∧ process_update user_id (CallbackQuery (lit "buildday" ++ lit ":" ++ day))
        {| current := Some STATE_BUILD_DAY; context := c; errors := es |}
      = {| current := Some STATE_BUILD_SLOT;
           context := {| store := w'; user_data := set_build_day day (user_data c);
                         sent := a :: Answer :: sent c |};
           errors := es |}.
Proof.
  intros Hday.
  destruct (on_build_day_ok user_id day c Hday) as (s & w' & a & Hget & Hh).
  exists s, w', a. split; [done|].
  unfold process_update. cbn [current context errors].
  change (conversation_select (Some STATE_BUILD_DAY)
            (CallbackQuery (lit "buildday" ++ lit ":" ++ day)))
    with (Some (λ uid, returning (on_build_day uid (lit "buildday" ++ lit ":" ++ day)))).
  unfold returning, mbind, Eff_bind. by rewrite Hh.
Qed.

(** The callback data of a slot button parses back into its day and index. *)
Lemma slot_data (day : str) (i : Z) :
  day ∈ WEEKDAYS → 0 ≤ i < 4 →
  split (lit "buildslot" ++ lit ":" ++ day ++ lit ":" ++ str_of_int i)
    = [lit "buildslot"; day; str_of_int i]
  ∧ day ≠ lit "back"
  ∧ int_of_str (str_of_int i) = inr i.
Proof.
  intros Hday Hi.
  assert (i = 0 ∨ i = 1 ∨ i = 2 ∨ i = 3) as Hcases by lia.
  unfold WEEKDAYS in Hday.
  repeat (apply elem_of_cons in Hday as [->|Hday];
          [by destruct Hcases as [->|[->|[->| ->]]]|]).
  by apply elem_of_nil in Hday.
Qed.

Lemma on_build_slot_ok (day : str) (i : Z) (c : ctx) :
  day ∈ WEEKDAYS → 0 ≤ i < 4 →
  ∃ a,
    on_build_slot (lit "buildslot" ++ lit ":" ++ day ++ lit ":" ++ str_of_int i) c
    = (inr STATE_BUILD_TEXT,
       {| store := store c;
          user_data := set_build_slot i (set_build_day day (user_data c));
          sent := a :: Answer :: sent c |}).
Proof.
  intros Hday Hi.
  destruct (slot_data day i Hday Hi) as (Hsplit & Hback & Hint).
  destruct (weekday_label day Hday) as [label Hlabel].
  eexists. unfold on_build_slot. rewrite Hsplit.
  cbn [length lookup list_lookup].
  rewrite (bool_decide_eq_false_2 (Some day = Some (lit "back"))) by congruence.
  rewrite andb_false_r.
  unfold mbind, Eff_bind, send, eval. cbn [unpack3]. rewrite Hint.
  cbn [set_user_data store user_data sent]. rewrite Hlabel.
  unfold safe_edit_message, send. by cbn [store user_data sent].
Qed.

Lemma step_build_slot (user_id : Z) (day : str) (i : Z) (c : ctx) (es : list exn) :
  day ∈ WEEKDAYS → 0 ≤ i < 4 →
  ∃ a,
    process_update user_id
      (CallbackQuery (lit "buildslot" ++ lit ":" ++ day ++ lit ":" ++ str_of_int i))
      {| current := Some STATE_BUILD_SLOT; context := c; errors := es |}
    = {| current := Some STATE_BUILD_TEXT;
         context := {| store := store c;
                       user_data := set_build_slot i (set_build_day day (user_data c));
                       sent := a :: Answer :: sent c |};
         errors := es |}.
Proof.
  intros Hday Hi.
  destruct (on_build_slot_ok day i c Hday Hi) as (a & Hh).
  exists a. unfold process_update. cbn [current context errors].
  change (conversation_select (Some STATE_BUILD_SLOT)
            (CallbackQuery (lit "buildslot" ++ lit ":" ++ day ++ lit ":" ++ str_of_int i)))
    with (Some (λ _ : Z, returning
                 (on_build_slot
                    (lit "buildslot" ++ lit ":" ++ day ++ lit ":" ++ str_of_int i)))).
  unfold returning, mbind, Eff_bind. by rewrite Hh.
Qed.

(** The build flow, step by step. *)
Lemma build_flow_run (user_id : Z) (day : str) (i : Z) (t : str) (c : ctx) (es : list exn) :
  day ∈ WEEKDAYS → 0 ≤ i < 4 → t ≠ [] →
  ∃ m s w',
    run user_id (build_flow day i t)
      {| current := Some STATE_MENU; context := c; errors := es |}
    = ([Some STATE_BUILD_DAY; Some STATE_BUILD_SLOT; Some STATE_BUILD_TEXT;
        Some STATE_MENU], m)
    ∧ errors m = es
    ∧ get_user_schedule user_id (store (context m)) = (inr s, w')
    ∧ slot s day (Z.to_nat i) = Some (JStr (trimmed_or_dash (Some t))).
Proof.
  intros Hday Hi Ht. unfold build_flow. cbn [run].
  destruct (step_menu_build user_id c es) as [a1 ->].
  match goal with
  | |- context [process_update _ (CallbackQuery (_ ++ _ ++ day)) (Machine _ ?c1 _)] =>
      destruct (step_build_day user_id day c1 es Hday) as (s1 & w1 & a2 & _ & ->)
  end.
  match goal with
  | |- context [process_update _ (CallbackQuery (_ ++ _ ++ day ++ _)) (Machine _ ?c2 _)] =>
      destruct (step_build_slot user_id day i c2 es Hday Hi) as (a3 & ->)
  end.
  rewrite (process_text Building) by done. cbn [on_text].
  match goal with
  | |- context [on_build_text _ _ ?c3] =>
      destruct (on_text_saves user_id (Some t) c3 Building day i Hday Hi eq_refl)
        as (s' & w' & a4 & Hrun & Hh);
      destruct (set_user_day_slot_result user_id day i (or_dash (message_text (Some t)))
                  (store c3) Hday Hi) as (s2 & w2 & Hrun2 & Hshape & Hslot & Htab)
  end.
  rewrite Hrun in Hrun2. injection Hrun2 as <- <-.
  cbn [on_text] in Hh. rewrite Hh. cbn [current context errors store].
  destruct (get_user_schedule_stored user_id w' s' Htab Hshape) as [w'' Hget].
  eexists _, s', w''. split; [reflexivity|]. cbn [current context errors store].
  split; [done|]. split; [exact Hget|].
  by rewrite Hslot, or_dash_trimmed.
Qed.

(** C7 (as amended). Build flow: for every user, weekday [D], slot index
    [i] in 0..3 and non-empty message text [T], the updates "menu:build",
    the button of [D], the button of slot [i] of [D] and the message [T],
    processed from the menu state, take the conversation through the
    build-day, build-slot and build-text states and back to the menu state
    without an error, and afterwards [get_user_schedule] returns a schedule
    whose slot [i] of day [D] is [T] with the blanks around it removed, or
    the empty marker when [T] is all blanks; it is [T] itself when [T] has
    no blanks around it. *)
Theorem build_flow_reaches_menu (user_id : Z) (day : str) (i : Z) (t : str)
    (c : ctx) (es : list exn) :
  day ∈ WEEKDAYS →
  0 ≤ i < 4 →
  t ≠ [] →
  ∃ m s w',
    run user_id (build_flow day i t)
      {| current := Some STATE_MENU; context := c; errors := es |}
    = ([Some STATE_BUILD_DAY; Some STATE_BUILD_SLOT; Some STATE_BUILD_TEXT;
        Some STATE_MENU], m)
    ∧ errors m = es
    ∧ get_user_schedule user_id (store (context m)) = (inr s, w')
    ∧ slot s day (Z.to_nat i)
      = Some (JStr (let txt := strip t in if decide (txt = []) then lit "—" else txt))
    ∧ (strip t = t → slot s day (Z.to_nat i) = Some (JStr t)).
Proof.
  intros Hday Hi Ht.
  destruct (build_flow_run user_id day i t c es Hday Hi Ht)
    as (m & s & w' & Hrun & Hes & Hget & Hslot).
  exists m, s, w'. split; [done|]. split; [done|]. split; [done|].
  split; [exact Hslot|].
  intros Hs. by rewrite Hslot, trimmed_or_dash_id.
Qed.

Lemma build_flow_reaches_menu_witness :
  lit "monday" ∈ WEEKDAYS
  ∧ 0 ≤ 0 < 4
  ∧ lit "Math" ≠ []
  ∧ ∃ m s w',
      run 7 (build_flow (lit "monday") 0 (lit "Math"))
        {| current := Some STATE_MENU; context := fresh_ctx; errors := [] |}
      = ([Some STATE_BUILD_DAY; Some STATE_BUILD_SLOT; Some STATE_BUILD_TEXT;
          Some STATE_MENU], m)
      ∧ errors m = []
      ∧ get_user_schedule 7 (store (context m)) = (inr s, w')
      ∧ slot s (lit "monday") (Z.to_nat 0)
        = Some (JStr (let txt := strip (lit "Math") in
                      if decide (txt = []) then lit "—" else txt))
      ∧ (strip (lit "Math") = lit "Math" →
         slot s (lit "monday") (Z.to_nat 0) = Some (JStr (lit "Math"))).
Proof.
  split; [apply monday_weekday|]. split; [lia|]. split; [discriminate|].
  apply (build_flow_reaches_menu 7 (lit "monday") 0 (lit "Math") fresh_ctx []);
    [apply monday_weekday | lia | discriminate].
Defined.

(** C7, the claim as stated fails for a text with blanks around it: after
    the build flow with the message " Math " the slot holds "Math", which
    is not the text that was sent. *)
Lemma build_flow_trims_text :
  ∃ m s w',
    run 7 (build_flow (lit "monday") 0 (lit " Math "))
      {| current := Some STATE_MENU; context := fresh_ctx; errors := [] |}
    = ([Some STATE_BUILD_DAY; Some STATE_BUILD_SLOT; Some STATE_BUILD_TEXT;
        Some STATE_MENU], m)
    ∧ get_user_schedule 7 (store (context m)) = (inr s, w')
    ∧ slot s (lit "monday") 0 = Some (JStr (lit "Math"))
    ∧ lit "Math" ≠ lit " Math ".
Proof.
  destruct (build_flow_run 7 (lit "monday") 0 (lit " Math ") fresh_ctx [])
    as (m & s & w' & Hrun & _ & Hget & Hslot);
    [apply monday_weekday | lia | discriminate |].
  exists m, s, w'. split; [exact Hrun|]. split; [exact Hget|].
  split; [exact Hslot | discriminate].
Qed.

(** * Further properties *)

(** * More about the storage functions *)

Lemma to_int_proper (n : Z) : Z.to_int n ≠ Decimal.Pos Decimal.Nil ∧ Z.to_int n ≠ Decimal.Neg Decimal.Nil.
Proof.
  destruct n as [|p|p]; cbn [Z.to_int]; split; try discriminate.
  - intros [= H]. by apply (DecimalPos.Unsigned.to_uint_nonnil p).
  - intros [= H]. by apply (DecimalPos.Unsigned.to_uint_nonnil p).
Qed.

Lemma map_N_of_ascii_inj (l l' : list ascii) :
  map N_of_ascii l = map N_of_ascii l' → l = l'.
Proof.
  revert l'. induction l as [|a l IH]; intros [|a' l']; try done.
  cbn [map]. intros [= Ha Hl]. f_equal; [|by apply IH].
  by rewrite <- (ascii_N_embedding a), <- (ascii_N_embedding a'), Ha.
Qed.

Lemma str_of_int_inj (n n' : Z) : str_of_int n = str_of_int n' → n = n'.
Proof.
  unfold str_of_int. intros H%map_N_of_ascii_inj.
  apply (f_equal string_of_list_ascii) in H.
  rewrite !string_of_list_ascii_of_string in H.
  apply DecimalZ.to_int_inj.
  destruct (to_int_proper n) as [Hp Hn], (to_int_proper n') as [Hp' Hn'].
  apply (f_equal NilZero.int_of_string) in H.
  rewrite !NilZero.isi in H by done. congruence.
Qed.

(** Whatever its arguments and its outcome, [set_user_day_slot] leaves a
    table that differs from the one it found in the caller's entry only. *)
Lemma set_user_day_slot_table (user_id : Z) (day : str) (i : Z) (value : str) (w : world) :
  ∃ s, table_of (file (set_user_day_slot user_id day i value w).2)
       = <[str_of_int user_id := to_json s]> (table_of (file w)).
Proof.
  unfold set_user_day_slot, mbind, Eff_bind. rewrite get_user_schedule_spec.
  unfold eval. destruct (dict_getitem _ day) as [e|l]; [by eexists|].
  destruct (list_setitem l i _) as [e|l']; [by eexists|].
  rewrite set_user_schedule_spec. cbn [snd file table_of].
  eexists. by rewrite insert_insert_eq.
Qed.

(** X1. Users are kept apart. For two different user ids, whatever
    [get_user_schedule], [set_user_schedule] or [set_user_day_slot] does for
    the first one (also when the slot write raises), the entry stored for
    the second one is left exactly as it was: the decimal keys of
    different ids differ and each function assigns one key only. *)
Theorem other_user_untouched (u v : Z) (sched : json) (day : str) (i : Z)
    (value : str) (w : world) :
  u ≠ v →
  let entry w' := table_of (file w') !! str_of_int v in
  entry (get_user_schedule u w).2 = entry w
  ∧ entry (set_user_schedule u sched w).2 = entry w
  ∧ entry (set_user_day_slot u day i value w).2 = entry w.
Proof.
  intros Huv entry. subst entry. cbn beta.
  assert (str_of_int u ≠ str_of_int v) as Hk by (by intros ?%str_of_int_inj).
  rewrite get_user_schedule_spec, set_user_schedule_spec. cbn [snd file table_of].
  destruct (set_user_day_slot_table u day i value w) as [s ->].
  by rewrite !lookup_insert_ne.
Qed.

Lemma other_user_untouched_witness :
  7 ≠ 8
  ∧ let entry w' := table_of (file w') !! str_of_int 8 in
    entry (get_user_schedule 7 world7).2 = entry world7
    ∧ entry (set_user_schedule 7 JNull world7).2 = entry world7
    ∧ entry (set_user_day_slot 7 (lit "monday") 0 (lit "Math") world7).2 = entry world7.
Proof.
  split; [lia|]. apply (other_user_untouched 7 8 JNull (lit "monday") 0 (lit "Math") world7). lia.
Defined.

Lemma view_insert_view (t : gmap str json) (key : str) :
  view (<[key := to_json (view t key)]> t) key = view t key.
Proof.
  unfold view at 1. rewrite lookup_insert_eq.
  apply normalize_shaped, shaped_view.
Qed.

Lemma shaped_well_formed (s : schedule) : shaped s → well_formed (to_json s) = true.
Proof.
  intros Hs. cbn [well_formed to_json]. apply andb_true_intro. split.
  - apply bool_decide_eq_true. by rewrite dom_fmap_L, (shaped_dom s Hs).
  - apply forallb_forall. intros d Hd%list_elem_of_In.
    destruct (shaped_lookup s d Hs Hd) as (l & Hl & Hlen).
    rewrite lookup_fmap, Hl. cbn [fmap option_fmap option_map].
    by apply bool_decide_eq_true.
Qed.

(** X2. [get_user_schedule] settles the entry it reads. After one call
    the entry stored for the user is well formed (the five weekdays, four
    items each), and a second call returns the same schedule and leaves
    the file as the first call left it. *)
Theorem get_user_schedule_settles (user_id : Z) (w : world) :
  ∃ s w1 w2 raw,
    get_user_schedule user_id w = (inr s, w1)
    ∧ table_of (file w1) !! str_of_int user_id = Some raw
    ∧ well_formed raw = true
    ∧ get_user_schedule user_id w1 = (inr s, w2)
    ∧ file w2 = file w1.
Proof.
  eexists _, _, _, _. rewrite get_user_schedule_spec. split; [done|].
  cbn [file table_of]. split; [apply lookup_insert_eq|].
  split; [apply shaped_well_formed, shaped_view|].
  rewrite get_user_schedule_spec. cbn [file table_of].
  rewrite view_insert_view. split; [done|].
  by rewrite insert_insert_eq.
Qed.

(** X3. The last [set_user_schedule] wins. Two calls in a row for the
    same user leave the same file as the second call alone. *)
Theorem set_user_schedule_last_wins (user_id : Z) (s1 s2 : json) (w : world) :
  file (set_user_schedule user_id s2 (set_user_schedule user_id s1 w).2).2
  = file (set_user_schedule user_id s2 w).2.
Proof.
  rewrite !set_user_schedule_spec. cbn [snd file table_of].
  by rewrite insert_insert_eq.
Qed.

Lemma table_of_not_object (f : file_state) : holds_object f = false → table_of f = ∅.
Proof. by destruct f as [| |[|[]]]. Qed.

(** X4. A file that cannot serve as the table is overwritten. When the
    file is absent, or is read but is not JSON or is JSON whose top level is
    not an object, [load_all] takes it for empty, so [get_user_schedule]
    and [set_user_schedule] write back a table that holds the calling
    user's entry and nothing else. *)
Theorem non_object_file_replaced (user_id : Z) (sched : json) (w : world) :
  holds_object (file w) = false →
  file w ≠ Unreadable →
  file (get_user_schedule user_id w).2
  = Holds (Document (JDict {[str_of_int user_id := to_json default_schedule]}))
  ∧ file (set_user_schedule user_id sched w).2
    = Holds (Document (JDict {[str_of_int user_id := to_json (_normalize_schedule sched)]})).
Proof.
  intros Hw%table_of_not_object _.
  rewrite get_user_schedule_spec, set_user_schedule_spec. cbn [snd file].
  rewrite Hw. unfold view. rewrite lookup_empty. by rewrite !insert_empty.
Qed.

Lemma non_object_file_replaced_witness :
  holds_object (Holds Garbage) = false
  ∧ Holds Garbage ≠ Unreadable
  ∧ file (get_user_schedule 7 (World (Holds Garbage) [])).2
    = Holds (Document (JDict {[str_of_int 7 := to_json default_schedule]}))
  ∧ file (set_user_schedule 7 JNull (World (Holds Garbage) [])).2
    = Holds (Document (JDict {[str_of_int 7 := to_json (_normalize_schedule JNull)]})).
Proof.
  split; [reflexivity|]. split; [discriminate|].
  apply (non_object_file_replaced 7 JNull (World (Holds Garbage) []));
    [reflexivity | discriminate].
Defined.

Lemma list_index_negative (n : nat) (i : Z) :
  - Z.of_nat n ≤ i < 0 → list_index n i = inr (Z.to_nat (i + Z.of_nat n)).
Proof.
  intros Hi. unfold list_index.
  destruct (Z.ltb_spec i 0); [|lia].
  destruct (Z.leb_spec 0 (i + Z.of_nat n)); [|lia].
  destruct (Z.ltb_spec (i + Z.of_nat n) (Z.of_nat n)); [done | lia].
Qed.

Lemma list_index_below (n : nat) (i : Z) :
  i < - Z.of_nat n → list_index n i = inl IndexError.
Proof.
  intros Hi. unfold list_index.
  destruct (Z.ltb_spec i 0); [|lia].
  by destruct (Z.leb_spec 0 (i + Z.of_nat n)); [lia|].
Qed.

Lemma list_index_bound (len : nat) (i : Z) (n : nat) :
  list_index len i = inr n → (n < len)%nat.
Proof.
  unfold list_index. case_match; [|done]. intros [= <-].
  apply andb_prop in H as [?%Z.leb_le ?%Z.ltb_lt]. lia.
Qed.

(** [set_user_day_slot] at the position that the index denotes. *)
Lemma set_user_day_slot_at (user_id : Z) (day : str) (i : Z) (value : str) (w : world)
    (n : nat) :
  day ∈ WEEKDAYS → list_index PAIR_COUNT i = inr n →
  ∃ s' w',
    set_user_day_slot user_id day i value w = (inr s', w')
    ∧ shaped s'
    ∧ slot s' day n = Some (JStr (or_dash value))
    ∧ table_of (file w') !! str_of_int user_id = Some (to_json s').
Proof.
  intros Hday Hn.
  destruct (shaped_lookup _ day (shaped_view (table_of (file w)) (str_of_int user_id)) Hday)
    as (l & Hl & Hlen).
  assert (n < length l)%nat as Hlt by (rewrite Hlen; by eapply list_index_bound).
  eexists _, _. unfold set_user_day_slot, mbind, Eff_bind.
  rewrite get_user_schedule_spec. unfold eval, dict_getitem. rewrite Hl.
  unfold list_setitem, mbind, exn_bind. rewrite Hlen, Hn. cbn [mret exn_ret].
  rewrite set_user_schedule_spec. cbn [file writes table_of].
  assert (shaped (<[day := <[n := JStr (or_dash value)]> l]>
                    (view (table_of (file w)) (str_of_int user_id)))) as Hs.
  { apply shaped_insert; [apply shaped_view | done | by rewrite length_insert]. }
  rewrite (normalize_shaped _ Hs). split; [done|]. split; [done|].
  split; [by apply slot_insert_same|]. apply lookup_insert_eq.
Qed.

(** X5. A negative slot index counts from the end. For a weekday and
    an index from -4 to -1, [set_user_day_slot] returns normally and writes
    the slot at position index + 4, as Python list assignment does. *)
Theorem set_user_day_slot_negative_index (user_id : Z) (day : str) (i : Z)
    (value : str) (w : world) :
  day ∈ WEEKDAYS →
  -4 ≤ i < 0 →
  ∃ s' w',
    set_user_day_slot user_id day i value w = (inr s', w')
    ∧ slot s' day (Z.to_nat (i + 4)) = Some (JStr (or_dash value))
    ∧ table_of (file w') !! str_of_int user_id = Some (to_json s').
Proof.
  intros Hday Hi.
  destruct (set_user_day_slot_at user_id day i value w (Z.to_nat (i + 4)) Hday)
    as (s' & w' & Hrun & _ & Hslot & Htab).
  { by apply (list_index_negative PAIR_COUNT). }
  by exists s', w'.
Qed.

Lemma set_user_day_slot_negative_index_witness :
  lit "friday" ∈ WEEKDAYS
  ∧ -4 ≤ -1 < 0
  ∧ ∃ s' w',
      set_user_day_slot 7 (lit "friday") (-1) (lit "Math") (World Absent []) = (inr s', w')
      ∧ slot s' (lit "friday") (Z.to_nat (-1 + 4)) = Some (JStr (or_dash (lit "Math")))
      ∧ table_of (file w') !! str_of_int 7 = Some (to_json s').
Proof.
  assert (lit "friday" ∈ WEEKDAYS) as Hd by (by do 4 right; left).
  split; [exact Hd|]. split; [lia|].
  apply (set_user_day_slot_negative_index 7 (lit "friday") (-1) (lit "Math") (World Absent []));
    [exact Hd | lia].
Defined.

(** X6. A slot write that raises has already written. For a day that
    is not a weekday, or an index of 4 or more or below -4,
    [set_user_day_slot] raises only after [get_user_schedule] has run: the
    storage is left as that call leaves it, one table written, with the
    user's normalized entry in it. *)
Theorem failed_slot_write_still_saves (user_id : Z) (day : str) (i : Z)
    (value : str) (w : world) :
  day ∉ WEEKDAYS ∨ 4 ≤ i ∨ i < -4 →
  ∃ e s w0 t0,
    get_user_schedule user_id w = (inr s, w0)
    ∧ set_user_day_slot user_id day i value w = (inl e, w0)
    ∧ writes w0 = t0 :: writes w
    ∧ t0 !! str_of_int user_id = Some (to_json s).
Proof.
  intros Hbad. unfold set_user_day_slot, mbind, Eff_bind.
  rewrite get_user_schedule_spec. unfold eval, dict_getitem.
  destruct (decide (day ∈ WEEKDAYS)) as [Hday|Hday].
  - destruct (shaped_lookup _ day (shaped_view (table_of (file w)) (str_of_int user_id)) Hday)
      as (l & -> & Hlen).
    unfold list_setitem, mbind, exn_bind. rewrite Hlen.
    assert (list_index PAIR_COUNT i = inl IndexError) as ->.
    { destruct Hbad as [?|[?|?]]; [done | | ].
      - by apply list_index_beyond.
      - by apply list_index_below. }
    eexists _, _, _, _. split; [done|]. split; [done|]. split; [done|].
    apply lookup_insert_eq.
  - rewrite (shaped_missing _ day (shaped_view _ _) Hday).
    eexists _, _, _, _. split; [done|]. split; [done|]. split; [done|].
    apply lookup_insert_eq.
Qed.

Lemma failed_slot_write_still_saves_witness :
  (lit "sunday" ∉ WEEKDAYS ∨ 4 ≤ 0 ∨ 0 < -4)
  ∧ ∃ e s w0 t0,
      get_user_schedule 7 (World Absent []) = (inr s, w0)
      ∧ set_user_day_slot 7 (lit "sunday") 0 (lit "Math") (World Absent []) = (inl e, w0)
      ∧ writes w0 = t0 :: writes (World Absent [])
      ∧ t0 !! str_of_int 7 = Some (to_json s).
Proof.
  assert (lit "sunday" ∉ WEEKDAYS) as Hd.
  { apply (bool_decide_unpack _). by vm_compute. }
  split; [by left|].
  apply (failed_slot_write_still_saves 7 (lit "sunday") 0 (lit "Math") (World Absent [])).
  by left.
Defined.

(** X7. Slot writes accumulate. Two [set_user_day_slot] calls in a row
    for the same user and two different slots leave both values in the
    schedule that the second call returns. *)
Theorem slot_writes_accumulate (user_id : Z) (d1 d2 : str) (i1 i2 : Z)
    (v1 v2 : str) (w : world) :
  d1 ∈ WEEKDAYS → d2 ∈ WEEKDAYS →
  0 ≤ i1 < 4 → 0 ≤ i2 < 4 →
  (d1, i1) ≠ (d2, i2) →
  ∃ s1 w1 s2 w2,
    set_user_day_slot user_id d1 i1 v1 w = (inr s1, w1)
    ∧ set_user_day_slot user_id d2 i2 v2 w1 = (inr s2, w2)
    ∧ slot s2 d1 (Z.to_nat i1) = Some (JStr (or_dash v1))
    ∧ slot s2 d2 (Z.to_nat i2) = Some (JStr (or_dash v2)).
Proof.
  intros Hd1 Hd2 Hi1 Hi2 Hne.
  destruct (set_user_day_slot_result user_id d1 i1 v1 w Hd1 Hi1)
    as (s1 & w1 & Hrun1 & Hs1 & Hslot1 & Htab1).
  destruct (set_user_day_slot_result user_id d2 i2 v2 w1 Hd2 Hi2)
    as (s2 & w2 & Hrun2 & Hs2 & Hslot2 & Htab2).
  destruct (set_user_day_slot_frame user_id d2 i2 v2 w1 Hd2 Hi2)
    as (s2' & w2' & Hrun2' & _ & Hframe).
  rewrite Hrun2 in Hrun2'. injection Hrun2' as <- <-.
  exists s1, w1, s2, w2. split; [done|]. split; [done|]. split; [|done].
  rewrite <- (stored_slot_to_json _ _ _ d1 (Z.to_nat i1) Htab2).
  rewrite Hframe.
  - unfold view. by rewrite Htab1, normalize_shaped.
  - intros [= -> Hi]. apply Hne. f_equal. lia.
Qed.

Lemma slot_writes_accumulate_witness :
  lit "monday" ∈ WEEKDAYS ∧ lit "monday" ∈ WEEKDAYS
  ∧ 0 ≤ 0 < 4 ∧ 0 ≤ 1 < 4
  ∧ (lit "monday", 0) ≠ (lit "monday", 1)
  ∧ ∃ s1 w1 s2 w2,
      set_user_day_slot 7 (lit "monday") 0 (lit "Math") (World Absent []) = (inr s1, w1)
      ∧ set_user_day_slot 7 (lit "monday") 1 (lit "Art") w1 = (inr s2, w2)
      ∧ slot s2 (lit "monday") (Z.to_nat 0) = Some (JStr (or_dash (lit "Math")))
      ∧ slot s2 (lit "monday") (Z.to_nat 1) = Some (JStr (or_dash (lit "Art"))).
Proof.
  split; [apply monday_weekday|]. split; [apply monday_weekday|].
  split; [lia|]. split; [lia|]. split; [discriminate|].
  apply (slot_writes_accumulate 7 (lit "monday") (lit "monday") 0 1 (lit "Math") (lit "Art")
           (World Absent []));
    [apply monday_weekday | apply monday_weekday | lia | lia | discriminate].
Defined.

(** * Formatting *)

Lemma shown_app (a b : text) : shown (a ++ b) = shown a ++ shown b.
Proof. apply omap_app. Qed.

Lemma shown_join_lines (lines : list text) :
  shown (join_lines lines) = concat (map shown lines).
Proof.
  induction lines as [|l [|l' rest] IH].
  - done.
  - cbn [join_lines map concat]. by rewrite app_nil_r.
  - change (join_lines (l :: l' :: rest))
      with (l ++ Lit (lit "
") :: join_lines (l' :: rest)).
    rewrite shown_app. cbn [map concat]. f_equal. exact IH.
Qed.

Lemma shown_items (g : nat → json → text) (l : list json) :
  (∀ i x, shown (g i x) = [x]) → concat (map shown (imap g l)) = l.
Proof.
  revert g. induction l as [|x l IH]; intros g Hg; [done|].
  cbn [imap map concat]. rewrite Hg. cbn [app]. f_equal.
  apply IH. intros i y. apply Hg.
Qed.

Lemma weekday_ru_missing (d : str) : d ∉ WEEKDAYS → WEEKDAY_RU !! d = None.
Proof.
  intros Hd. unfold WEEKDAY_RU.
  rewrite !lookup_insert_ne; [apply lookup_empty|..].
  all: intros <-; apply Hd; unfold WEEKDAYS; set_solver.
Qed.

(** X8. [format_day] raises [KeyError] for every day that is not one
    of the five weekdays, whatever the schedule holds: the default of
    [schedule.get] does not help, the lookup of the day's title fails. *)
Theorem format_day_unknown_day (s : schedule) (d : str) :
  d ∉ WEEKDAYS → format_day s d = inl (KeyError d).
Proof.
  intros Hd. unfold format_day, dict_getitem.
  by rewrite (weekday_ru_missing d Hd).
Qed.

Lemma format_day_unknown_day_witness :
  (lit "saturday" ∉ WEEKDAYS)
  ∧ format_day {[lit "saturday" := [JStr (lit "Math")]]} (lit "saturday")
    = inl (KeyError (lit "saturday")).
Proof.
  assert (lit "saturday" ∉ WEEKDAYS) as Hd.
  { apply (bool_decide_unpack _). by vm_compute. }
  split; [exact Hd|]. by apply format_day_unknown_day.
Defined.

(** What [format_day] shows of a schedule. *)
Lemma format_day_shown (s : schedule) (d : str) :
  d ∈ WEEKDAYS →
  ∃ t, format_day s d = inr t
       ∧ shown t = default (replicate PAIR_COUNT (JStr DASH)) (s !! d).
Proof.
  intros [label Hlabel]%weekday_label. unfold format_day. rewrite Hlabel.
  eexists. split; [done|].
  rewrite shown_join_lines, !map_app, !concat_app. cbn [map concat shown omap app].
  rewrite !app_nil_r. by apply shown_items.
Qed.

(** X9. For a weekday, [format_day] returns a text that renders the
    items of that day in their order, each once and nothing else of the
    schedule; when the schedule has no such day it renders four empty
    markers. *)
Theorem format_day_shows_slots (s : schedule) (d : str) :
  d ∈ WEEKDAYS →
  ∃ t, format_day s d = inr t
       ∧ shown t = default [JStr (lit "—"); JStr (lit "—"); JStr (lit "—"); JStr (lit "—")]
                           (s !! d).
Proof. apply format_day_shown. Qed.

Lemma format_day_shows_slots_witness :
  lit "monday" ∈ WEEKDAYS
  ∧ ∃ t, format_day ∅ (lit "monday") = inr t
         ∧ shown t = default [JStr (lit "—"); JStr (lit "—"); JStr (lit "—"); JStr (lit "—")]
                             ((∅ : schedule) !! lit "monday").
Proof.
  split; [apply monday_weekday|].
  apply (format_day_shows_slots ∅ (lit "monday")), monday_weekday.
Defined.

(** * What the text handlers store *)

Lemma lstrip_fixed (c : N) (s : str) : isspace c = false → lstrip (c :: s) = c :: s.
Proof. intros Hc. cbn [lstrip]. by rewrite Hc. Qed.

Lemma lstrip_head (s : str) (c : N) (r : str) : lstrip s = c :: r → isspace c = false.
Proof.
  induction s as [|a s IH]; [done|]. cbn [lstrip].
  destruct (isspace a) eqn:Ha; [exact IH|]. by intros [= <- _].
Qed.

Lemma lstrip_keeps_last (x : str) (c : N) :
  isspace c = false → ∃ y, lstrip (x ++ [c]) = y ++ [c].
Proof.
  intros Hc. induction x as [|a x IH].
  - exists []. cbn [app lstrip]. by rewrite Hc.
  - cbn [app lstrip]. destruct (isspace a); [exact IH|]. by exists (a :: x).
Qed.

Lemma lstrip_idemp (s : str) : lstrip (lstrip s) = lstrip s.
Proof.
  destruct (lstrip s) as [|c r] eqn:Hs; [done|].
  by apply lstrip_fixed, (lstrip_head s c r).
Qed.

Lemma strip_idemp (s : str) : strip (strip s) = strip s.
Proof.
  unfold strip, rstrip.
  assert (lstrip (rev (lstrip (rev (lstrip s)))) = rev (lstrip (rev (lstrip s)))) as ->.
  { destruct (lstrip s) as [|c r] eqn:Hs; [done|].
    pose proof (lstrip_head s c r Hs) as Hc.
    cbn [rev]. destruct (lstrip_keeps_last (rev r) c Hc) as [y ->].
    rewrite rev_app_distr. cbn [rev app]. by apply lstrip_fixed. }
  by rewrite rev_involutive, lstrip_idemp.
Qed.

Lemma trimmed_or_dash_clean (message : option str) :
  trimmed_or_dash message ≠ [] ∧ strip (trimmed_or_dash message) = trimmed_or_dash message.
Proof.
  unfold trimmed_or_dash. cbn zeta. case_decide as Ht; [done|].
  split; [done | apply strip_idemp].
Qed.

(** What the text-entry handlers leave in the slot they write. *)
Lemma on_text_stored (f : flow) (user_id : Z) (message : option str) (c : ctx)
    (day : str) (i : Z) :
  day ∈ WEEKDAYS → 0 ≤ i < 4 →
  pending f (user_data c) = (Some day, Some i) →
  ∃ c', on_text f user_id message c = (inr STATE_MENU, c')
        ∧ stored_slot (table_of (file (store c'))) (str_of_int user_id) day (Z.to_nat i)
          = Some (JStr (trimmed_or_dash message)).
Proof.
  intros Hday Hi Hp.
  destruct (on_text_saves user_id message c f day i Hday Hi Hp)
    as (s' & w' & a & Hrun & Hh).
  destruct (set_user_day_slot_result user_id day i (or_dash (message_text message))
              (store c) Hday Hi) as (s2 & w2 & Hrun2 & _ & Hslot & Ht).
  rewrite Hrun in Hrun2. injection Hrun2 as <- <-.
  eexists. split; [exact Hh|]. cbn [store].
  by rewrite (stored_slot_to_json _ _ _ _ _ Ht), Hslot, or_dash_trimmed.
Qed.

(** X10. What the text-entry handlers store is never empty and has no
    blanks around it. With a valid pending selection, [on_build_text] and
    [on_edit_text] leave in the slot a string that is not the empty string
    and that [strip] does not change, for any message text, also an absent
    one. *)
Theorem entered_text_is_clean (f : flow) (user_id : Z) (message : option str) (c : ctx)
    (day : str) (i : Z) :
  day ∈ WEEKDAYS →
  0 ≤ i < 4 →
  pending f (user_data c) = (Some day, Some i) →
  ∃ c' v,
    on_text f user_id message c = (inr STATE_MENU, c')
    ∧ stored_slot (table_of (file (store c'))) (str_of_int user_id) day (Z.to_nat i)
      = Some (JStr v)
    ∧ v ≠ []
    ∧ strip v = v.
Proof.
  intros Hday Hi Hp.
  destruct (on_text_stored f user_id message c day i Hday Hi Hp) as (c' & Hh & Hslot).
  destruct (trimmed_or_dash_clean message) as [Hne Hstrip].
  by exists c', (trimmed_or_dash message).
Qed.

Lemma entered_text_is_clean_witness :
  lit "monday" ∈ WEEKDAYS
  ∧ 0 ≤ 0 < 4
  ∧ pending Building (user_data monday_pending) = (Some (lit "monday"), Some 0)
  ∧ ∃ c' v,
      on_text Building 7 (Some (lit "  Math ")) monday_pending = (inr STATE_MENU, c')
      ∧ stored_slot (table_of (file (store c'))) (str_of_int 7) (lit "monday") (Z.to_nat 0)
        = Some (JStr v)
      ∧ v ≠ []
      ∧ strip v = v.
Proof.
  split; [apply monday_weekday|]. split; [lia|]. split; [reflexivity|].
  apply (entered_text_is_clean Building 7 (Some (lit "  Math ")) monday_pending
           (lit "monday") 0); [apply monday_weekday | lia | reflexivity].
Defined.

(** * Dispatch *)

(** X11. The menu is reachable from every state. In each of the eight
    states the callback "menu:back" is answered, replaces the message by
    the menu, and moves the conversation to the menu state, without
    touching the storage or the session and without an error. *)
Theorem menu_back_everywhere (user_id : Z) (s : state) (c : ctx) (es : list exn) :
  process_update user_id (CallbackQuery (lit "menu:back"))
    {| current := Some s; context := c; errors := es |}
  = {| current := Some STATE_MENU;
       context := {| store := store c; user_data := user_data c;
                     sent := EditMessage [Lit (lit "Меню:")] kb_menu :: Answer :: sent c |};
       errors := es |}.
Proof. by destruct s. Qed.

(** X12. [/start] works in every state and before any conversation.
    It moves to the menu state without an error, runs [get_user_schedule]
    for the user, so that the table then holds a well-formed entry for
    them, and leaves the session as it was: a pending selection is not
    cleared. *)
Theorem start_everywhere (user_id : Z) (cur : option state) (c : ctx) (es : list exn) :
  ∃ c' raw,
    process_update user_id (Command (lit "start"))
      {| current := cur; context := c; errors := es |}
    = {| current := Some STATE_MENU; context := c'; errors := es |}
    ∧ store c' = (get_user_schedule user_id (store c)).2
    ∧ user_data c' = user_data c
    ∧ table_of (file (store c')) !! str_of_int user_id = Some raw
    ∧ well_formed raw = true.
Proof.
  eexists _, _. unfold process_update. cbn [current context errors].
  change (conversation_select cur (Command (lit "start")))
    with (Some (λ uid : Z, returning (cmd_start uid))).
  unfold returning, cmd_start, mbind, Eff_bind, storage, send.
  rewrite get_user_schedule_spec. cbn [store user_data sent mret Eff_ret].
  split; [done|]. cbn [store user_data snd file table_of].
  split; [done|]. split; [done|].
  split; [apply lookup_insert_eq|]. apply shaped_well_formed, shaped_view.
Qed.

(** X13. [/help] works in every state and before any conversation, and
    changes nothing but the chat: the state, the storage and the session
    stay, one reply with the menu keyboard is sent. *)
Theorem help_everywhere (user_id : Z) (cur : option state) (c : ctx) (es : list exn) :
  ∃ a,
    process_update user_id (Command (lit "help"))
      {| current := cur; context := c; errors := es |}
    = {| current := cur;
         context := {| store := store c; user_data := user_data c;
                       sent := ReplyText a kb_menu :: sent c |};
         errors := es |}.
Proof. eexists. by destruct cur as [[]|]. Qed.

(** X14. Before the first [/start] the bot reacts to [/start] and
    [/help] only: every other update (any button press, any text, any other
    command) leaves state, storage, session and chat untouched. *)
Theorem nothing_before_start (user_id : Z) (u : update) (c : ctx) (es : list exn) :
  u ≠ Command (lit "start") →
  u ≠ Command (lit "help") →
  process_update user_id u {| current := None; context := c; errors := es |}
  = {| current := None; context := c; errors := es |}.
Proof.
  intros Hs Hh. unfold process_update, conversation_select. cbn [current].
  destruct u as [name|t|data]; try done.
  cbn [entry_points first_match check_update help_handler].
  rewrite !decide_False; [done|..]; congruence.
Qed.

Lemma nothing_before_start_witness :
  CallbackQuery (lit "menu:build") ≠ Command (lit "start")
  ∧ CallbackQuery (lit "menu:build") ≠ Command (lit "help")
  ∧ process_update 7 (CallbackQuery (lit "menu:build"))
      {| current := None; context := fresh_ctx; errors := [] |}
    = {| current := None; context := fresh_ctx; errors := [] |}.
Proof.
  split; [discriminate|]. split; [discriminate|].
  apply (nothing_before_start 7 (CallbackQuery (lit "menu:build")) fresh_ctx []);
    discriminate.
Defined.

(** X15. A text message is taken in the two text-entry states only. In
    the six other states it is ignored: nothing is stored, sent or
    changed. *)
Theorem text_ignored_elsewhere (user_id : Z) (s : state) (t : str) (c : ctx) (es : list exn) :
  awaits_text s = false →
  process_update user_id (Message t) {| current := Some s; context := c; errors := es |}
  = {| current := Some s; context := c; errors := es |}.
Proof. by destruct s. Qed.

Lemma text_ignored_elsewhere_witness :
  awaits_text STATE_BUILD_SLOT = false
  ∧ process_update 7 (Message (lit "Math"))
      {| current := Some STATE_BUILD_SLOT; context := fresh_ctx; errors := [] |}
    = {| current := Some STATE_BUILD_SLOT; context := fresh_ctx; errors := [] |}.
Proof.
  split; [reflexivity|].
  by apply (text_ignored_elsewhere 7 STATE_BUILD_SLOT (lit "Math") fresh_ctx []).
Defined.

(** X16. The three buttons of the menu keyboard work in the menu state
    only. In every other state (where the reply to [/help] still shows
    them) pressing one of them changes nothing: no handler of that state
    takes their callback data. *)
Theorem menu_buttons_dead_outside_menu (user_id : Z) (s : state) (c : ctx) (es : list exn) :
  s ≠ STATE_MENU →
  Forall (λ data,
            process_update user_id (CallbackQuery data)
              {| current := Some s; context := c; errors := es |}
            = {| current := Some s; context := c; errors := es |})
         (buttons kb_menu).
Proof.
  intros Hs. repeat apply Forall_cons_2; [..|apply Forall_nil_2]; by destruct s.
Qed.

Lemma menu_buttons_dead_outside_menu_witness :
  STATE_BUILD_TEXT ≠ STATE_MENU
  ∧ Forall (λ data,
              process_update 7 (CallbackQuery data)
                {| current := Some STATE_BUILD_TEXT; context := fresh_ctx; errors := [] |}
              = {| current := Some STATE_BUILD_TEXT; context := fresh_ctx; errors := [] |})
           (buttons kb_menu).
Proof.
  split; [discriminate|].
  apply (menu_buttons_dead_outside_menu 7 STATE_BUILD_TEXT fresh_ctx []). discriminate.
Defined.


(** * Keyboards *)

Lemma on_view_day_ok (user_id : Z) (day : str) (c : ctx) :
  day ∈ WEEKDAYS →
  ∃ s w' t,
    get_user_schedule user_id (store c) = (inr s, w')
    ∧ format_day s day = inr t
    ∧ on_view_day user_id (lit "viewday" ++ lit ":" ++ day) c
      = (inr STATE_MENU,
         {| store := w'; user_data := user_data c;
            sent := EditMessage t kb_back_to_menu :: Answer :: sent c |}).
Proof.
  intros Hday.
  destruct (get_user_schedule user_id (store c)) as [[e|s] w'] eqn:Hget.
  { by rewrite get_user_schedule_spec in Hget. }
  destruct (format_day_ok s day Hday) as [t Ht].
  exists s, w', t. split; [done|]. split; [done|].
  step_handler on_view_day.
  replace (split_max (lit "viewday" ++ lit ":" ++ day) 1) with [lit "viewday"; day]
    by (by destruct day).
  cbn [eval unpack2]. unfold storage. cbn [store user_data sent]. rewrite Hget.
  unfold eval. by rewrite Ht.
Qed.

Lemma on_edit_day_ok (user_id : Z) (day : str) (c : ctx) :
  day ∈ WEEKDAYS →
  ∃ s w' a,
    get_user_schedule user_id (store c) = (inr s, w')
    ∧ on_edit_day user_id (lit "editday" ++ lit ":" ++ day) c
      = (inr STATE_EDIT_SLOT,
         {| store := w'; user_data := set_edit_day day (user_data c);
            sent := a :: Answer :: sent c |}).
Proof.
  intros Hday.
  destruct (get_user_schedule user_id (store c)) as [[e|s] w'] eqn:Hget.
  { by rewrite get_user_schedule_spec in Hget. }
  destruct (format_day_ok s day Hday) as [t Ht].
  eexists s, w', _. split; [done|].
  step_handler on_edit_day.
  replace (split_max (lit "editday" ++ lit ":" ++ day) 1) with [lit "editday"; day]
    by (by destruct day).
  cbn [eval unpack2]. unfold storage. cbn [store user_data sent]. rewrite Hget.
  unfold eval. by rewrite Ht.
Qed.

Lemma step_day (k : chooser) (user_id : Z) (day : str) (c : ctx) (es : list exn) :
  day ∈ WEEKDAYS →
  ∃ w' ud a,
    process_update user_id (CallbackQuery (day_prefix k ++ lit ":" ++ day))
      {| current := Some (day_state k); context := c; errors := es |}
    = {| current := Some (after_day k);
         context := {| store := w'; user_data := ud; sent := a :: Answer :: sent c |};
         errors := es |}
    ∧ w' = (get_user_schedule user_id (store c)).2.
Proof.
  intros Hday. destruct k; cbn [day_prefix day_state after_day].
  - destruct (on_view_day_ok user_id day c Hday) as (s & w' & t & Hget & _ & Hh).
    eexists _, _, _.
    step_machine (λ uid : Z, returning (on_view_day uid (lit "viewday" ++ lit ":" ++ day))).
    rewrite Hh, Hget. done.
  - destruct (on_build_day_ok user_id day c Hday) as (s & w' & a & Hget & Hh).
    eexists _, _, _.
    step_machine (λ uid : Z, returning (on_build_day uid (lit "buildday" ++ lit ":" ++ day))).
    rewrite Hh, Hget. done.
  - destruct (on_edit_day_ok user_id day c Hday) as (s & w' & a & Hget & Hh).
    eexists _, _, _.
    step_machine (λ uid : Z, returning (on_edit_day uid (lit "editday" ++ lit ":" ++ day))).
    rewrite Hh, Hget. done.
Qed.

Lemma lands_menu_back (user_id : Z) (s : state) (targets : list state) :
  STATE_MENU ∈ targets → lands user_id s (lit "menu:back") targets.
Proof. intros Ht c es. eexists _, _. split; [by destruct s | done]. Qed.

(** X18. No button of a weekday keyboard is dead. For each of the three
    day choosers, [kb_weekdays] succeeds, its buttons carry the prefix of
    the chooser and each weekday, then "menu:back", and every one of them,
    pressed in the state of that chooser, is handled without an error and
    leads to the next state of the flow or to the menu. *)
Theorem weekday_buttons_land (k : chooser) (user_id : Z) :
  ∃ kb, kb_weekdays (day_prefix k) = inr kb
        ∧ buttons kb = ((λ d, day_prefix k ++ lit ":" ++ d) <$> WEEKDAYS) ++ [lit "menu:back"]
        ∧ Forall (λ data, lands user_id (day_state k) data [after_day k; STATE_MENU])
                 (buttons kb).
Proof.
  assert (∃ kb, kb_weekdays (day_prefix k) = inr kb
                ∧ buttons kb = ((λ d, day_prefix k ++ lit ":" ++ d) <$> WEEKDAYS)
                               ++ [lit "menu:back"]) as (kb & Hkb & Hb).
  { by destruct k; eexists. }
  exists kb. split; [done|]. split; [done|]. rewrite Hb.
  apply Forall_app. split.
  - apply Forall_forall. intros data (d & -> & Hd)%list_elem_of_fmap c es.
    destruct (step_day k user_id d c es Hd) as (w' & ud & a & Hstep & _).
    eexists _, _. split; [exact Hstep | by left].
  - apply Forall_singleton, lands_menu_back. by right; left.
Qed.

Lemma edit_slot_data (day : str) (i : Z) :
  day ∈ WEEKDAYS → 0 ≤ i < 4 →
  split (lit "editslot" ++ lit ":" ++ day ++ lit ":" ++ str_of_int i)
    = [lit "editslot"; day; str_of_int i]
  ∧ day ≠ lit "back"
  ∧ int_of_str (str_of_int i) = inr i.
Proof.
  intros Hday Hi.
  assert (i = 0 ∨ i = 1 ∨ i = 2 ∨ i = 3) as Hcases by lia.
  unfold WEEKDAYS in Hday.
  repeat (apply elem_of_cons in Hday as [->|Hday];
          [by destruct Hcases as [->|[->|[->| ->]]]|]).
  by apply elem_of_nil in Hday.
Qed.

Lemma list_getitem_in_range {A} (l : list A) (i : Z) (x : A) :
  0 ≤ i < Z.of_nat (length l) → l !! Z.to_nat i = Some x → list_getitem l i = inr x.
Proof.
  intros Hi Hx. unfold list_getitem, mbind, exn_bind.
  by rewrite list_index_in_range, Hx.
Qed.

Lemma on_edit_slot_ok (user_id : Z) (day : str) (i : Z) (c : ctx) :
  day ∈ WEEKDAYS → 0 ≤ i < 4 →
  ∃ s w' cur t,
    get_user_schedule user_id (store c) = (inr s, w')
    ∧ slot s day (Z.to_nat i) = Some cur
    ∧ shown t = [cur]
    ∧ on_edit_slot user_id (lit "editslot" ++ lit ":" ++ day ++ lit ":" ++ str_of_int i) c
      = (inr STATE_EDIT_TEXT,
         {| store := w';
            user_data := set_edit_slot i (set_edit_day day (user_data c));
            sent := EditMessage t kb_back_to_menu :: Answer :: sent c |}).
Proof.
  intros Hday Hi.
  destruct (edit_slot_data day i Hday Hi) as (Hsplit & Hback & Hint).
  destruct (weekday_label day Hday) as [label Hlabel].
  destruct (get_user_schedule user_id (store c)) as [[e|s] w'] eqn:Hget.
  { by rewrite get_user_schedule_spec in Hget. }
  assert (shaped s) as Hs.
  { rewrite get_user_schedule_spec in Hget. injection Hget as <- _. apply shaped_view. }
  destruct (shaped_lookup s day Hs Hday) as (l & Hl & Hlen).
  destruct (lookup_lt_is_Some_2 l (Z.to_nat i)) as [cur Hcur].
  { rewrite Hlen. unfold PAIR_COUNT. lia. }
  eexists s, w', cur, _. split; [done|].
  split; [unfold slot; by rewrite Hl|].
  split; [|].
  2:{ unfold on_edit_slot. rewrite Hsplit. cbn [length lookup list_lookup].
      rewrite (bool_decide_eq_false_2 (Some day = Some (lit "back"))) by congruence.
      rewrite andb_false_r.
      unfold mbind, Eff_bind, send, eval. cbn [unpack3]. rewrite Hint.
      cbn [set_user_data store user_data sent]. unfold storage.
      cbn [store user_data sent]. rewrite Hget.
      unfold dict_getitem at 1. rewrite Hl.
      rewrite (list_getitem_in_range l i cur) by (rewrite ?Hlen; unfold PAIR_COUNT; done || lia).
      rewrite Hlabel. unfold safe_edit_message, send. cbn [store user_data sent]. done. }
  done.
Qed.

Lemma step_edit_slot (user_id : Z) (day : str) (i : Z) (c : ctx) (es : list exn) :
  day ∈ WEEKDAYS → 0 ≤ i < 4 →
  ∃ s w' cur t,
    get_user_schedule user_id (store c) = (inr s, w')
    ∧ slot s day (Z.to_nat i) = Some cur
    ∧ shown t = [cur]
    ∧ process_update user_id
        (CallbackQuery (lit "editslot" ++ lit ":" ++ day ++ lit ":" ++ str_of_int i))
        {| current := Some STATE_EDIT_SLOT; context := c; errors := es |}
      = {| current := Some STATE_EDIT_TEXT;
           context := {| store := w';
                         user_data := set_edit_slot i (set_edit_day day (user_data c));
                         sent := EditMessage t kb_back_to_menu :: Answer :: sent c |};
           errors := es |}.
Proof.
  intros Hday Hi.
  destruct (on_edit_slot_ok user_id day i c Hday Hi)
    as (s & w' & cur & t & Hget & Hslot & Hshown & Hh).
  exists s, w', cur, t. split; [done|]. split; [done|]. split; [done|].
  step_machine (λ uid : Z, returning
    (on_edit_slot uid (lit "editslot" ++ lit ":" ++ day ++ lit ":" ++ str_of_int i))).
  by rewrite Hh.
Qed.

Lemma step_slot (f : flow) (user_id : Z) (day : str) (i : Z) (c : ctx) (es : list exn) :
  day ∈ WEEKDAYS → 0 ≤ i < 4 →
  ∃ c',
    process_update user_id
      (CallbackQuery (slot_prefix f ++ lit ":" ++ day ++ lit ":" ++ str_of_int i))
      {| current := Some (slot_state f); context := c; errors := es |}
    = {| current := Some (text_state f); context := c'; errors := es |}
    ∧ pending f (user_data c') = (Some day, Some i).
Proof.
  intros Hday Hi. destruct f; cbn [slot_prefix slot_state text_state].
  - destruct (step_build_slot user_id day i c es Hday Hi) as (a & ->). by eexists.
  - destruct (step_edit_slot user_id day i c es Hday Hi)
      as (s & w' & cur & t & _ & _ & _ & ->). by eexists.
Qed.

Lemma step_slot_back (f : flow) (user_id : Z) (day : str) (c : ctx) (es : list exn) :
  day ∈ WEEKDAYS →
  ∃ a,
    process_update user_id (CallbackQuery (slot_prefix f ++ lit ":back:" ++ day))
      {| current := Some (slot_state f); context := c; errors := es |}
    = {| current := Some (chooser_state f);
         context := {| store := store c; user_data := user_data c;
                       sent := a :: Answer :: sent c |};
         errors := es |}.
Proof.
  unfold WEEKDAYS. intros Hday.
  repeat (apply elem_of_cons in Hday as [->|Hday]; [by destruct f; eexists|]).
  by apply elem_of_nil in Hday.
Qed.

(** X19. No button of a slot keyboard is dead. For a weekday, the
    buttons of [kb_slots] are the four slot buttons, the back button and
    the menu button, and every one of them, pressed in the slot state of
    its flow, is handled without an error and leads to the text-entry
    state, back to the day chooser, or to the menu. *)
Theorem slot_buttons_land (f : flow) (user_id : Z) (day : str) :
  day ∈ WEEKDAYS →
  buttons (kb_slots (slot_prefix f) day)
  = ((λ i, slot_prefix f ++ lit ":" ++ day ++ lit ":" ++ str_of_int i) <$> [0; 1; 2; 3])
    ++ [slot_prefix f ++ lit ":back:" ++ day; lit "menu:back"]
  ∧ Forall (λ data, lands user_id (slot_state f) data
                      [text_state f; chooser_state f; STATE_MENU])
           (buttons (kb_slots (slot_prefix f) day)).
Proof.
  intros Hday.
  assert (buttons (kb_slots (slot_prefix f) day)
          = ((λ i, slot_prefix f ++ lit ":" ++ day ++ lit ":" ++ str_of_int i) <$> [0; 1; 2; 3])
            ++ [slot_prefix f ++ lit ":back:" ++ day; lit "menu:back"]) as Hb.
  { reflexivity. }
  split; [exact Hb|]. rewrite Hb. apply Forall_app. split.
  - apply Forall_forall. intros data (i & -> & Hin)%list_elem_of_fmap c es.
    assert (0 ≤ i < 4) as Hi by (set_unfold; lia).
    destruct (step_slot f user_id day i c es Hday Hi) as (c' & Hstep & _).
    eexists _, _. split; [exact Hstep | by left].
  - apply Forall_cons_2; [|apply Forall_singleton].
    + intros c es. destruct (step_slot_back f user_id day c es Hday) as [a Hstep].
      eexists _, _. split; [exact Hstep | by right; left].
    + apply lands_menu_back. by do 2 right; left.
Qed.

Lemma slot_buttons_land_witness :
  lit "monday" ∈ WEEKDAYS
  ∧ buttons (kb_slots (slot_prefix Editing) (lit "monday"))
    = ((λ i, slot_prefix Editing ++ lit ":" ++ lit "monday" ++ lit ":" ++ str_of_int i)
         <$> [0; 1; 2; 3])
      ++ [slot_prefix Editing ++ lit ":back:" ++ lit "monday"; lit "menu:back"]
  ∧ Forall (λ data, lands 7 (slot_state Editing) data
                      [text_state Editing; chooser_state Editing; STATE_MENU])
           (buttons (kb_slots (slot_prefix Editing) (lit "monday"))).
Proof.
  split; [apply monday_weekday|].
  apply (slot_buttons_land Editing 7 (lit "monday")), monday_weekday.
Defined.

(** * The edit and view flows *)

Lemma step_menu_edit (user_id : Z) (c : ctx) (es : list exn) :
  ∃ a,
    process_update user_id (CallbackQuery (lit "menu:edit"))
      {| current := Some STATE_MENU; context := c; errors := es |}
    = {| current := Some STATE_EDIT_DAY;
         context := {| store := store c; user_data := user_data c;
                       sent := a :: Answer :: sent c |};
         errors := es |}.
Proof. by eexists. Qed.

Lemma step_menu_view (user_id : Z) (c : ctx) (es : list exn) :
  ∃ a,
    process_update user_id (CallbackQuery (lit "menu:view"))
      {| current := Some STATE_MENU; context := c; errors := es |}
    = {| current := Some STATE_VIEW_DAY;
         context := {| store := store c; user_data := user_data c;
                       sent := a :: Answer :: sent c |};
         errors := es |}.
Proof. by eexists. Qed.

(** Reading a schedule does not change what the next reader gets. *)
Lemma view_after_get (user_id : Z) (w : world) :
  view (table_of (file (get_user_schedule user_id w).2)) (str_of_int user_id)
  = view (table_of (file w)) (str_of_int user_id).
Proof.
  rewrite get_user_schedule_spec. cbn [snd file table_of]. apply view_insert_view.
Qed.

Lemma get_user_schedule_view (user_id : Z) (w : world) :
  (get_user_schedule user_id w).1 = inr (view (table_of (file w)) (str_of_int user_id)).
Proof. by rewrite get_user_schedule_spec. Qed.

(** X20. The edit flow replaces one slot and nothing else. From the
    menu, "menu:edit", the button of a weekday, the button of a slot and a
    non-empty text lead through the edit states back to the menu without
    an error; the prompt for the text shows the value the slot had; after
    the flow the slot holds the stripped text (or the empty marker) and
    every other slot is what [get_user_schedule] returned before the
    flow. *)
Theorem edit_flow_replaces_slot (user_id : Z) (day : str) (i : Z) (t : str)
    (c : ctx) (es : list exn) :
  day ∈ WEEKDAYS →
  0 ≤ i < 4 →
  t ≠ [] →
  ∃ s0 w0 old m prompt s w',
    get_user_schedule user_id (store c) = (inr s0, w0)
    ∧ slot s0 day (Z.to_nat i) = Some old
    ∧ run user_id (edit_flow day i t)
        {| current := Some STATE_MENU; context := c; errors := es |}
      = ([Some STATE_EDIT_DAY; Some STATE_EDIT_SLOT; Some STATE_EDIT_TEXT;
          Some STATE_MENU], m)
    ∧ errors m = es
    ∧ EditMessage prompt kb_back_to_menu ∈ sent (context m)
    ∧ shown prompt = [old]
    ∧ get_user_schedule user_id (store (context m)) = (inr s, w')
    ∧ slot s day (Z.to_nat i)
      = Some (JStr (let txt := strip t in if decide (txt = []) then lit "—" else txt))
    ∧ ∀ d j, (d, j) ≠ (day, Z.to_nat i) → slot s d j = slot s0 d j.
Proof.
  intros Hday Hi Ht.
  pose proof (get_user_schedule_spec user_id (store c)) as Hget0. cbn zeta in Hget0.
  unfold edit_flow. cbn [run].
  destruct (step_menu_edit user_id c es) as [a1 ->].
  match goal with
  | |- context [process_update _ (CallbackQuery (_ ++ _ ++ day)) (Machine _ ?c1 _)] =>
      destruct (step_day EditDays user_id day c1 es Hday) as (w1 & ud & a2 & Hstep & Hw1)
  end.
  cbn [day_prefix day_state after_day store] in Hstep, Hw1. rewrite Hstep. clear Hstep.
  match goal with
  | |- context [process_update _ (CallbackQuery (_ ++ _ ++ day ++ _)) (Machine _ ?c2 _)] =>
      destruct (step_edit_slot user_id day i c2 es Hday Hi)
        as (s1 & w2 & old & prompt & Hget1 & Hold & Hshown & ->)
  end.
  cbn [store] in Hget1.
  rewrite (process_text Editing) by done.
  match goal with
  | |- context [on_text Editing _ _ ?c3] =>
      destruct (on_text_saves user_id (Some t) c3 Editing day i Hday Hi eq_refl)
        as (s' & w3 & a4 & Hrun & Hh);
      destruct (set_user_day_slot_result user_id day i (or_dash (message_text (Some t)))
                  (store c3) Hday Hi) as (s2 & w3' & Hrun2 & Hshape & Hslot & Htab);
      destruct (set_user_day_slot_frame user_id day i (or_dash (message_text (Some t)))
                  (store c3) Hday Hi) as (s3 & w3'' & Hrun3 & _ & Hframe)
  end.
  rewrite Hrun in Hrun2, Hrun3. injection Hrun2 as <- <-. injection Hrun3 as <- <-.
  rewrite Hh. cbn [current context errors store sent] in *.
  destruct (get_user_schedule_stored user_id w3 s' Htab Hshape) as [w4 Hget].
  (* the schedule read by the slot step is the one a reader gets at the start *)
  assert (s1 = view (table_of (file (store c))) (str_of_int user_id)) as Hs1.
  { pose proof (get_user_schedule_view user_id w1) as H1. rewrite Hget1 in H1.
    cbn [fst] in H1. injection H1 as ->. subst w1. apply view_after_get. }
  assert (view (table_of (file w2)) (str_of_int user_id)
          = view (table_of (file (store c))) (str_of_int user_id)) as Hv2.
  { replace w2 with (get_user_schedule user_id w1).2 by (by rewrite Hget1).
    rewrite view_after_get. subst w1. apply view_after_get. }
  eexists _, _, old, _, prompt, s', w4.
  split; [exact Hget0|]. split; [by rewrite <- Hs1|].
  split; [reflexivity|]. cbn [current context errors store sent].
  split; [done|]. split; [by right; left|]. split; [done|]. split; [exact Hget|].
  split; [by rewrite Hslot, or_dash_trimmed|].
  intros d j Hne. rewrite <- Hv2, <- (Hframe d j Hne).
  symmetry. by apply stored_slot_to_json.
Qed.

Lemma edit_flow_replaces_slot_witness :
  lit "monday" ∈ WEEKDAYS
  ∧ 0 ≤ 0 < 4
  ∧ lit "Math" ≠ []
  ∧ ∃ s0 w0 old m prompt s w',
      get_user_schedule 7 (store fresh_ctx) = (inr s0, w0)
      ∧ slot s0 (lit "monday") (Z.to_nat 0) = Some old
      ∧ run 7 (edit_flow (lit "monday") 0 (lit "Math"))
          {| current := Some STATE_MENU; context := fresh_ctx; errors := [] |}
        = ([Some STATE_EDIT_DAY; Some STATE_EDIT_SLOT; Some STATE_EDIT_TEXT;
            Some STATE_MENU], m)
      ∧ errors m = []
      ∧ EditMessage prompt kb_back_to_menu ∈ sent (context m)
      ∧ shown prompt = [old]
      ∧ get_user_schedule 7 (store (context m)) = (inr s, w')
      ∧ slot s (lit "monday") (Z.to_nat 0)
        = Some (JStr (let txt := strip (lit "Math") in
                      if decide (txt = []) then lit "—" else txt))
      ∧ ∀ d j, (d, j) ≠ (lit "monday", Z.to_nat 0) → slot s d j = slot s0 d j.
Proof.
  split; [apply monday_weekday|]. split; [lia|]. split; [discriminate|].
  apply (edit_flow_replaces_slot 7 (lit "monday") 0 (lit "Math") fresh_ctx []);
    [apply monday_weekday | lia | discriminate].
Defined.

(** X21. The view flow shows the day and changes nothing else. From the
    menu, "menu:view" and the button of a weekday lead to the day chooser
    and back to the menu without an error; the message shown renders the
    four items of that day as [get_user_schedule] returns them; the
    storage is as that call leaves it and the session is untouched. *)
Theorem view_flow_shows_day (user_id : Z) (day : str) (c : ctx) (es : list exn) :
  day ∈ WEEKDAYS →
  ∃ s0 w0 l m t a,
    get_user_schedule user_id (store c) = (inr s0, w0)
    ∧ s0 !! day = Some l
    ∧ run user_id (view_flow day)
        {| current := Some STATE_MENU; context := c; errors := es |}
      = ([Some STATE_VIEW_DAY; Some STATE_MENU], m)
    ∧ errors m = es
    ∧ store (context m) = w0
    ∧ user_data (context m) = user_data c
    ∧ sent (context m)
      = EditMessage t kb_back_to_menu :: Answer :: a :: Answer :: sent c
    ∧ shown t = l.
Proof.
  intros Hday. unfold view_flow. cbn [run].
  destruct (step_menu_view user_id c es) as [a1 ->].
  match goal with
  | |- context [process_update _ _ (Machine _ ?c1 _)] =>
      destruct (on_view_day_ok user_id day c1 Hday) as (s0 & w0 & t & Hget & Hfmt & Hh)
  end.
  cbn [store user_data sent] in Hget, Hh.
  assert (shaped s0) as Hs.
  { rewrite get_user_schedule_spec in Hget. injection Hget as <- _. apply shaped_view. }
  destruct (shaped_lookup s0 day Hs Hday) as (l & Hl & _).
  destruct (format_day_shown s0 day Hday) as (t' & Hfmt' & Hshown).
  rewrite Hfmt in Hfmt'. injection Hfmt' as <-. rewrite Hl in Hshown.
  eexists s0, w0, l, _, t, a1. split; [done|]. split; [done|].
  step_machine (λ uid : Z, returning (on_view_day uid (lit "viewday" ++ lit ":" ++ day))).
  rewrite Hh. by cbn.
Qed.

Lemma view_flow_shows_day_witness :
  lit "monday" ∈ WEEKDAYS
  ∧ ∃ s0 w0 l m t a,
      get_user_schedule 7 (store fresh_ctx) = (inr s0, w0)
      ∧ s0 !! lit "monday" = Some l
      ∧ run 7 (view_flow (lit "monday"))
          {| current := Some STATE_MENU; context := fresh_ctx; errors := [] |}
        = ([Some STATE_VIEW_DAY; Some STATE_MENU], m)
      ∧ errors m = []
      ∧ store (context m) = w0
      ∧ user_data (context m) = user_data fresh_ctx
      ∧ sent (context m)
        = EditMessage t kb_back_to_menu :: Answer :: a :: Answer :: sent fresh_ctx
      ∧ shown t = l.
Proof.
  split; [apply monday_weekday|].
  apply (view_flow_shows_day 7 (lit "monday") fresh_ctx []), monday_weekday.
Defined.

(** * Callback data that no button carries *)

Lemma split_colon_free (x : str) : COLON ∉ x → split x = [x].
Proof.
  induction x as [|c x IH]; [done|]. intros Hx.
  apply not_elem_of_cons in Hx as [Hc Hx]. cbn [split].
  rewrite (proj2 (N.eqb_neq c COLON)) by congruence.
  by rewrite IH.
Qed.

Lemma split_payload (f : flow) (day x : str) :
  day ∈ WEEKDAYS → COLON ∉ x →
  split (slot_payload f day x) = [slot_prefix f; day; x] ∧ day ≠ lit "back".
Proof.
  unfold WEEKDAYS, slot_payload. intros Hday Hx.
  pose proof (split_colon_free x Hx) as Hsplit.
  repeat (apply elem_of_cons in Hday as [->|Hday];
          [split; [|done]; destruct f;
           match goal with
           | |- split ?data = [?p; ?d; _] =>
               transitivity (p :: d :: split x); [reflexivity | by rewrite Hsplit]
           end|]).
  by apply elem_of_nil in Hday.
Qed.

Lemma int_of_str_error (x : str) (e : exn) : int_of_str x = inl e → e = ValueError.
Proof.
  unfold int_of_str. repeat case_match; congruence.
Qed.

Lemma select_slot (f : flow) (day x : str) :
  conversation_select (Some (slot_state f)) (CallbackQuery (slot_payload f day x))
  = Some (match f with
          | Building => λ _ : Z, returning (on_build_slot (slot_payload Building day x))
          | Editing => λ uid : Z, returning (on_edit_slot uid (slot_payload Editing day x))
          end).
Proof. by destruct f. Qed.

(** X22. A slot button whose number does not parse is rejected before
    anything is changed. In the slot state of either flow, callback data
    with a weekday and, in the place of the number, a text that [int]
    rejects raises [ValueError]: the state stays, the error goes to the
    error handler, and storage and session are untouched. *)
Theorem slot_number_rejected (f : flow) (user_id : Z) (day x : str) (e : exn)
    (c : ctx) (es : list exn) :
  day ∈ WEEKDAYS →
  COLON ∉ x →
  int_of_str x = inl e →
  e = ValueError
  ∧ process_update user_id (CallbackQuery (slot_payload f day x))
      {| current := Some (slot_state f); context := c; errors := es |}
    = {| current := Some (slot_state f);
         context := {| store := store c; user_data := user_data c;
                       sent := Answer :: sent c |};
         errors := ValueError :: es |}.
Proof.
  intros Hday Hx He. pose proof (int_of_str_error x e He) as ->. split; [done|].
  destruct (split_payload f day x Hday Hx) as [Hsplit Hback].
  unfold process_update. cbn [current context errors]. rewrite select_slot.
  destruct f; unfold returning, on_build_slot, on_edit_slot; rewrite Hsplit;
    cbn [length lookup list_lookup];
    rewrite (bool_decide_eq_false_2 (Some day = Some (lit "back"))) by congruence;
    rewrite andb_false_r;
    unfold mbind, Eff_bind, send, eval; cbn [unpack3]; by rewrite He.
Qed.

Lemma no_colon_in_x : COLON ∉ lit "x".
Proof. apply (bool_decide_unpack _). by vm_compute. Qed.

Lemma slot_number_rejected_witness :
  lit "monday" ∈ WEEKDAYS
  ∧ (COLON ∉ lit "x")
  ∧ int_of_str (lit "x") = inl ValueError
  ∧ ValueError = ValueError
  ∧ process_update 7 (CallbackQuery (slot_payload Building (lit "monday") (lit "x")))
      {| current := Some (slot_state Building); context := fresh_ctx; errors := [] |}
    = {| current := Some (slot_state Building);
         context := {| store := store fresh_ctx; user_data := user_data fresh_ctx;
                       sent := Answer :: sent fresh_ctx |};
         errors := [ValueError] |}.
Proof.
  split; [apply monday_weekday|]. split; [apply no_colon_in_x|]. split; [reflexivity|].
  apply (slot_number_rejected Building 7 (lit "monday") (lit "x") ValueError fresh_ctx []);
    [apply monday_weekday | apply no_colon_in_x | reflexivity].
Defined.



Lemma no_colon_in_7 : COLON ∉ lit "7".
Proof. apply (bool_decide_unpack _). by vm_compute. Qed.


(** X24. In the edit flow a slot number of 4 or more, or below -4, makes
    [on_edit_slot] raise [IndexError] when it reads the current value: the
    state stays, but by then the session holds that day and number and the
    table has been rewritten by [get_user_schedule]. *)
Theorem edit_slot_index_error (user_id : Z) (day x : str) (i : Z) (c : ctx) (es : list exn) :
  day ∈ WEEKDAYS →
  COLON ∉ x →
  int_of_str x = inr i →
  4 ≤ i ∨ i < -4 →
  process_update user_id (CallbackQuery (slot_payload Editing day x))
    {| current := Some STATE_EDIT_SLOT; context := c; errors := es |}
  = {| current := Some STATE_EDIT_SLOT;
       context := {| store := (get_user_schedule user_id (store c)).2;
                     user_data := set_edit_slot i (set_edit_day day (user_data c));
                     sent := Answer :: sent c |};
       errors := IndexError :: es |}.
Proof.
  intros Hday Hx Hint Hi.
  destruct (split_payload Editing day x Hday Hx) as [Hsplit Hback].
  unfold process_update. cbn [current context errors].
  change STATE_EDIT_SLOT with (slot_state Editing) at 1. rewrite (select_slot Editing).
  unfold returning, on_edit_slot. rewrite Hsplit. cbn [length lookup list_lookup].
  rewrite (bool_decide_eq_false_2 (Some day = Some (lit "back"))) by congruence.
  rewrite andb_false_r.
  unfold mbind, Eff_bind, send, eval. cbn [unpack3]. rewrite Hint.
  cbn [set_user_data store user_data sent]. unfold storage. cbn [store user_data sent].
  rewrite get_user_schedule_spec. cbn [snd].
  destruct (shaped_lookup _ day (shaped_view (table_of (file (store c))) (str_of_int user_id))
              Hday) as (l & Hl & Hlen).
  unfold dict_getitem at 1. rewrite Hl.
  unfold list_getitem, mbind, exn_bind. rewrite Hlen.
  assert (list_index PAIR_COUNT i = inl IndexError) as ->.
  { destruct Hi; [by apply list_index_beyond | by apply list_index_below]. }
  done.
Qed.

Lemma edit_slot_index_error_witness :
  lit "monday" ∈ WEEKDAYS
  ∧ (COLON ∉ lit "7")
  ∧ int_of_str (lit "7") = inr 7
  ∧ (4 ≤ 7 ∨ 7 < -4)
  ∧ process_update 7 (CallbackQuery (slot_payload Editing (lit "monday") (lit "7")))
      {| current := Some STATE_EDIT_SLOT; context := fresh_ctx; errors := [] |}
    = {| current := Some STATE_EDIT_SLOT;
         context := {| store := (get_user_schedule 7 (store fresh_ctx)).2;
                       user_data := set_edit_slot 7 (set_edit_day (lit "monday")
                                                       (user_data fresh_ctx));
                       sent := Answer :: sent fresh_ctx |};
         errors := [IndexError] |}.
Proof.
  split; [apply monday_weekday|]. split; [apply no_colon_in_7|]. split; [reflexivity|].
  split; [lia|].
  apply (edit_slot_index_error 7 (lit "monday") (lit "7") 7 fresh_ctx []);
    [apply monday_weekday | apply no_colon_in_7 | reflexivity | lia].
Defined.


(** * What escapes [load_all] *)

(** X25. [load_all] raises exactly when the existence probe raises. The
    probe stands before the [try]: an exception of [DATA_FILE.exists()]
    leaves [load_all] as it is, and nothing else does, whatever opening,
    reading and decoding the file raise. *)
Theorem load_all_raises_only_from_probe (p : Disk.path_state) (e : exn) :
  (Disk.load_all p).1 = inl e ↔ p = Disk.ProbeFails e.
Proof.
  split.
  - by destruct p as [e'| |e'|[e'|j e'|[]]]; intros [=]; subst.
  - by intros ->.
Qed.
